(** * SenTient Falcon: the disambiguation pipeline

    A shallow embedding of the Falcon semantic layer of SenTient:

    - [src/falcon/preprocessing.py]  (class [FalconPreprocessor]),
    - [src/falcon/pipeline.py]       (class [FalconPipeline]),
    - [src/main.py]                  (the Flask endpoint [disambiguate] and
                                      its helper functions).

    Conventions of the embedding.

    - A Python [str] is a [string] whose characters are the code points
      below 256 (Latin-1); [str.lower], [str.strip] and the character
      classes of the default cleaning pattern are given on that range.
    - A Python [float] score is a rational [Q]: the arithmetic of the code
      (comparison, [min], [max], multiplication by 100, [round]) is read
      on the exact value.
    - The collaborators (ElasticSearch client, SentenceTransformer) are the
      fields of an environment record [Env]; a call that raises is [None].
      Every call to a collaborator is recorded in a trace of [event]s, so
      that "the scorer is not invoked" is a statement about the trace.
    - A Python [dict] from identifiers to strings is a [gmap string string];
      a Python [set] of strings is a [gset string]. *)

From Stdlib Require Import ZArith QArith Qround Lqa String Ascii List Permutation Sorted Lia.
From stdpp Require Import base gmap strings list pretty.
Import ListNotations.

Local Open Scope string_scope.
Local Open Scope list_scope.

(* ===================================================================== *)
(** ** Python strings *)
(* ===================================================================== *)

Module PyStr.

(** Truth value of a string: [if s:] holds for the non-empty ones. *)
Definition truthy (s : string) : bool :=
  match s with EmptyString => false | String _ _ => true end.

Definition code (c : ascii) : N := N_of_ascii c.

Definition in_range (lo hi : N) (c : ascii) : bool :=
  ((lo <=? code c) && (code c <=? hi))%N.

(** [str.isspace] on one code point below 256: TAB..CR, FS..US, space,
    NEL and NBSP.  The same class is what [\s] matches in a [str]
    pattern and what [str.strip()] removes. *)
Definition is_space (c : ascii) : bool :=
  in_range 9 13 c || in_range 28 32 c || (code c =? 133)%N || (code c =? 160)%N.

(** [a-zA-Z0-9] *)
Definition is_ascii_alnum (c : ascii) : bool :=
  in_range 97 122 c || in_range 65 90 c || in_range 48 57 c.

(** The cased capitals below 256: A..Z and the Latin-1 capitals
    (U+00C0..U+00DE without the multiplication sign U+00D7). *)
Definition is_upper (c : ascii) : bool :=
  in_range 65 90 c || (in_range 192 222 c && negb (code c =? 215)%N).

Definition lower_char (c : ascii) : ascii :=
  if is_upper c then ascii_of_N (code c + 32) else c.

(** [s.lower()] *)
Fixpoint lower (s : string) : string :=
  match s with
  | EmptyString => EmptyString
  | String c s' => String (lower_char c) (lower s')
  end.

(** Keep the characters of [s] that satisfy [p]. *)
Fixpoint filter_chars (p : ascii -> bool) (s : string) : string :=
  match s with
  | EmptyString => EmptyString
  | String c s' => if p c then String c (filter_chars p s') else filter_chars p s'
  end.

Fixpoint all_chars (p : ascii -> bool) (s : string) : bool :=
  match s with
  | EmptyString => true
  | String c s' => p c && all_chars p s'
  end.

Fixpoint lstrip (s : string) : string :=
  match s with
  | EmptyString => EmptyString
  | String c s' => if is_space c then lstrip s' else s
  end.

Fixpoint rstrip (s : string) : string :=
  match s with
  | EmptyString => EmptyString
  | String c s' =>
      match rstrip s' with
      | EmptyString => if is_space c then EmptyString else String c EmptyString
      | r => String c r
      end
  end.

(** [s.strip()] *)
Definition strip (s : string) : string := rstrip (lstrip s).

(** [s.startswith(c)] for a one-character prefix. *)
Definition startswith_char (c : ascii) (s : string) : bool :=
  match s with
  | EmptyString => false
  | String d _ => Ascii.eqb c d
  end.

(** [sep.join(l)] *)
Definition join (sep : string) (l : list string) : string := String.concat sep l.

End PyStr.

(* ===================================================================== *)
(** ** Python lists and numbers *)
(* ===================================================================== *)

Module PyList.

(** [l[:k]]: a negative stop counts from the end, and the stop is
    clipped to the bounds of the list. *)
Definition slice_to {A : Type} (l : list A) (k : Z) : list A :=
  let n := Z.of_nat (length l) in
  let stop := if (k <? 0)%Z then Z.max 0 (n + k) else Z.min k n in
  firstn (Z.to_nat stop) l.

Definition truthy {A : Type} (l : list A) : bool :=
  match l with [] => false | _ :: _ => true end.

End PyList.

Module PyNum.

Definition Qltb (x y : Q) : bool := negb (Qle_bool y x).

(** [min(a, b)] and [max(a, b)] of two arguments: the first argument is
    kept unless the second is strictly smaller (resp. larger). *)
Definition min2 (a b : Q) : Q := if Qltb b a then b else a.
Definition max2 (a b : Q) : Q := if Qltb a b then b else a.

(** Round half to even, to an integer. *)
Definition round_half_even (q : Q) : Z :=
  let f := Qfloor q in
  match ((q - inject_Z f) ?= (1 # 2))%Q with
  | Lt => f
  | Gt => (f + 1)%Z
  | Eq => if Z.even f then f else (f + 1)%Z
  end.

(** [round(x, 4)] *)
Definition round4 (x : Q) : Q :=
  (inject_Z (round_half_even (x * 10000)) / 10000)%Q.

(** [int(x)]: truncation towards zero. *)
Definition int_of (x : Q) : Z := Z.quot (Qnum x) (Z.pos (Qden x)).

(** [str(n)] for an integer. *)
Definition str_of_int (n : Z) : string := pretty n.

End PyNum.

(* ===================================================================== *)
(** ** Stable sort on a rational key, largest first *)
(* ===================================================================== *)

(** [l.sort(key=k, reverse=True)].  Python's sort is stable, and stays
    stable with [reverse=True]: an element moves behind another one only
    when its key is strictly smaller. *)
Module PySort.

Section Sort.
Context {A : Type} (key : A -> Q).

Fixpoint insert_desc (x : A) (l : list A) : list A :=
  match l with
  | [] => [x]
  | y :: l' =>
      if PyNum.Qltb (key x) (key y) then y :: insert_desc x l'
      else x :: y :: l'
  end.

Fixpoint sort_desc (l : list A) : list A :=
  match l with
  | [] => []
  | x :: l' => insert_desc x (sort_desc l')
  end.

End Sort.

End PySort.

(* ===================================================================== *)
(** ** Collaborators and the trace of their calls *)
(* ===================================================================== *)

(** A field of a JSON object that holds a string: the key is absent, the
    value is [null], or the value is a string. *)
Inductive Field :=
| Absent
| Null
| Text (s : string).

(** A Python value that is a string or [None]. *)
Module PyVal.

(** [d.get(k)]: [None] for an absent key and for [null]. *)
Definition get (f : Field) : option string :=
  match f with
  | Text s => Some s
  | Absent => None
  | Null => None
  end.

(** [d.get(k, '')]: the default for an absent key only. *)
Definition get_or_empty (f : Field) : option string :=
  match f with
  | Text s => Some s
  | Absent => Some ""
  | Null => None
  end.

(** Truth value: false for [None] and for the empty string. *)
Definition truthy (v : option string) : bool :=
  match v with
  | Some s => PyStr.truthy s
  | None => false
  end.

End PyVal.

(** [_source] of an entity document: both fields are optional. *)
Record Source := { description : Field; label : Field }.

(** One entry of an [mget] response: [found] with its [_source], or not
    found. *)
Inductive MgetDoc :=
| DocFound (_id : string) (_source : Source)
| DocMissing (_id : string).

Definition doc_id (d : MgetDoc) : string :=
  match d with DocFound i _ => i | DocMissing i => i end.

(** One hit of a property search: [_source.get('pid')]. *)
Record Hit := { pid : option string }.

Record Env := {
  (** [config['thresholds']['max_candidates']] *)
  max_candidates : Z;
  (** the characters the cleaning pattern keeps: the pattern of
      [config['preprocessing']['clean_regex']] is a negated class [[^...]],
      and substituting its matches by the empty string keeps exactly the
      characters of the class *)
  keep : ascii -> bool;
  (** the loaded stopword set *)
  stopwords : gset string;
  (** [embedder.encode] and [util.cos_sim(a, b).item()] *)
  vec : Type;
  encode : string -> vec;
  cos_sim : vec -> vec -> Q;
  (** [es_client.search] on the property index with the fuzzy match query
      on [label], [size] 1; [None] when the call raises *)
  es_search : string -> option (list Hit);
  (** [es_client.mget] on the entity index; [None] when the call raises *)
  es_mget : list string -> option (list MgetDoc)
}.

(** The default cleaning pattern ["[^a-zA-Z0-9\\s]"]. *)
Definition default_keep (c : ascii) : bool :=
  PyStr.is_ascii_alnum c || PyStr.is_space c.

Inductive event :=
| EvSearch (query : string)
| EvMget (ids : list string)
| EvEncode (text : string).

Definition is_search (e : event) : bool :=
  match e with EvSearch _ => true | _ => false end.
Definition is_mget (e : event) : bool :=
  match e with EvMget _ => true | _ => false end.
Definition is_encode (e : event) : bool :=
  match e with EvEncode _ => true | _ => false end.

(** A computation that returns a value and the calls it made, in order. *)
Definition Traced (A : Type) : Type := (A * list event)%type.

Definition ret {A : Type} (a : A) : Traced A := (a, []).

Definition bind {A B : Type} (m : Traced A) (k : A -> Traced B) : Traced B :=
  let (b, t) := k (fst m) in (b, snd m ++ t).

Definition call {A : Type} (e : event) (a : A) : Traced A := (a, [e]).

Notation "'let*' x ':=' m 'in' k" := (bind m (fun x => k))
  (at level 10, x name, m at level 100, k at level 200).

Definition value {A : Type} (m : Traced A) : A := fst m.
Definition trace {A : Type} (m : Traced A) : list event := snd m.

(** The stopword file, read as [_load_stopwords] and the start-up code of
    [main.py] read it: a missing file leaves the set empty. *)
Fixpoint add_stopwords (lines : list string) (acc : gset string) : gset string :=
  match lines with
  | [] => acc
  | line :: rest =>
      let word := PyStr.lower (PyStr.strip line) in
      if PyStr.truthy word && negb (PyStr.startswith_char "#" word)
      then add_stopwords rest ({[ word ]} ∪ acc)
      else add_stopwords rest acc
  end.

Definition load_stopwords (file : option (list string)) : gset string :=
  match file with
  | Some lines => add_stopwords lines ∅
  | None => ∅
  end.

(** The response of the pipeline: the result dictionary, or the error
    payload [{"error": msg}] that the endpoint sends with status 500. *)
Record Ranked := {
  id : string;
  falcon_score : Q;
  semantic_reason : string
}.

Inductive Response :=
| Result (inferred_property : option string) (ranked_candidates : list Ranked)
| ErrorResponse (msg : string).

(** [max(0.0, min(1.0, score))] *)
Definition clamp01 (score : Q) : Q := PyNum.max2 0 (PyNum.min2 1 score).

(** [int(score*100)] printed in decimal. *)
Definition percent (score : Q) : string :=
  PyNum.str_of_int (PyNum.int_of (score * 100)).

(* ===================================================================== *)
(** ** [src/falcon/preprocessing.py] *)
(* ===================================================================== *)

Module FalconPreprocessor.

Section WithEnv.
Context (env : Env).

(** [self.clean_regex.sub("", s)] *)
Definition clean_regex_sub (s : string) : string :=
  PyStr.filter_chars (keep env) s.

Fixpoint clean_context_window (context_tokens : list string) : list string :=
  match context_tokens with
  | [] => []
  | token :: rest =>
      let token_lower := PyStr.lower token in
      let token_clean := clean_regex_sub token_lower in
      if PyStr.truthy token_clean && negb (bool_decide (token_clean ∈ stopwords env))
      then token_clean :: clean_context_window rest
      else clean_context_window rest
  end.

End WithEnv.

End FalconPreprocessor.

(* ===================================================================== *)
(** ** [src/falcon/pipeline.py] *)
(* ===================================================================== *)

Module FalconPipeline.

Section WithEnv.
Context (env : Env).

Definition _generate_reason (score : Q) : string :=
  if PyNum.Qltb (8 # 10) score then
    "Strong Context Match (" +:+ percent score +:+ "%)"
  else if PyNum.Qltb (4 # 10) score then
    "Moderate Context Overlap (" +:+ percent score +:+ "%)"
  else "Low Context Similarity".

Definition _infer_property_from_ngrams (tokens : list string)
  : Traced (option string) :=
  if negb (PyList.truthy tokens) then ret None
  else
    let window_query := PyStr.join " " tokens in
    let* res := call (EvSearch window_query) (es_search env window_query) in
    match res with
    | Some (h :: _) => ret (pid h)
    | Some [] => ret None
    | None => ret None
    end.

(** [src.get('description') or src.get('label') or ""] *)
Definition description_of (src : Source) : string :=
  match PyVal.get (description src) with
  | Some (String c d) => String c d
  | _ =>
      match PyVal.get (label src) with
      | Some (String c l) => String c l
      | _ => ""
      end
  end.

Fixpoint collect_descriptions (docs : list MgetDoc)
  (descriptions : gmap string string) : gmap string string :=
  match docs with
  | [] => descriptions
  | DocFound i src :: rest =>
      collect_descriptions rest (<[ i := description_of src ]> descriptions)
  | DocMissing i :: rest =>
      collect_descriptions rest (<[ i := "" ]> descriptions)
  end.

(** [{qid: "" for qid in qids}] *)
Definition all_empty (qids : list string) : gmap string string :=
  list_to_map (map (fun qid => (qid, "")) qids).

Definition _fetch_descriptions (qids : list string)
  : Traced (gmap string string) :=
  let* response := call (EvMget qids) (es_mget env qids) in
  match response with
  | Some docs => ret (collect_descriptions docs ∅)
  | None => ret (all_empty qids)
  end.

Definition encode_text (text : string) : Traced (vec env) :=
  call (EvEncode text) (encode env text).

(** The scoring loop of [run]. *)
Fixpoint score_candidates (surface_form : string)
  (descriptions_map : gmap string string) (vector_a : vec env)
  (candidate_ids : list string) : Traced (list Ranked) :=
  match candidate_ids with
  | [] => ret []
  | qid :: rest =>
      let desc := default "" (descriptions_map !! qid) in
      let text_to_encode := if PyStr.truthy desc then desc else surface_form in
      let* vector_b := encode_text text_to_encode in
      let score := cos_sim env vector_a vector_b in
      let score := clamp01 score in
      let entry := {| id := qid;
                      falcon_score := PyNum.round4 score;
                      semantic_reason := _generate_reason score |} in
      let* results := score_candidates surface_form descriptions_map vector_a rest in
      ret (entry :: results)
  end.

Definition run (surface_form : string) (raw_context : list string)
  (candidate_ids : list string) : Traced Response :=
  let clean_context_tokens :=
    FalconPreprocessor.clean_context_window env raw_context in
  let context_str := PyStr.join " " clean_context_tokens in
  let* inferred_pid := _infer_property_from_ngrams clean_context_tokens in
  if negb (PyList.truthy candidate_ids) then ret (Result inferred_pid [])
  else
    let* descriptions_map := _fetch_descriptions candidate_ids in
    let input_text := PyStr.strip (surface_form +:+ " " +:+ context_str) in
    let* vector_a := encode_text input_text in
    let* results :=
      score_candidates surface_form descriptions_map vector_a candidate_ids in
    let results := PySort.sort_desc falcon_score results in
    ret (Result inferred_pid results).

End WithEnv.

End FalconPipeline.

(* ===================================================================== *)
(** ** [src/main.py] *)
(* ===================================================================== *)

(** The JSON object of a request.  A field is [None] when its key is
    absent; [other_keys] tells whether the object has any further key. *)
Record Payload := {
  surface_form : option string;
  context_window : option (list string);
  candidates : option (list string);
  limit : option Z;
  other_keys : bool
}.

Module Main.

(** Truth value of the payload dictionary: false for [{}] only. *)
Definition payload_truthy (payload : Payload) : bool :=
  bool_decide (is_Some (surface_form payload))
  || bool_decide (is_Some (context_window payload))
  || bool_decide (is_Some (candidates payload))
  || bool_decide (is_Some (limit payload))
  || other_keys payload.

Section WithEnv.
Context (env : Env).

Fixpoint preprocess_context (context_tokens : list string) : list string :=
  match context_tokens with
  | [] => []
  | word :: rest =>
      if negb (bool_decide (PyStr.lower word ∈ stopwords env))
      then word :: preprocess_context rest
      else preprocess_context rest
  end.

(** [desc = src.get('description', '')], then [src.get('label', '')] when
    [desc] is empty or [None]; the value that is stored can be [None]. *)
Definition description_of (src : Source) : option string :=
  let desc := PyVal.get_or_empty (description src) in
  if negb (PyVal.truthy desc) then PyVal.get_or_empty (label src) else desc.

Fixpoint collect_descriptions (docs : list MgetDoc)
  (descriptions : gmap string (option string)) : gmap string (option string) :=
  match docs with
  | [] => descriptions
  | DocFound i src :: rest =>
      collect_descriptions rest (<[ i := description_of src ]> descriptions)
  | DocMissing i :: rest =>
      collect_descriptions rest (<[ i := Some "" ]> descriptions)
  end.

(** [{qid: "" for qid in candidate_ids}] *)
Definition all_empty (candidate_ids : list string) : gmap string (option string) :=
  list_to_map (map (fun qid => (qid, Some "")) candidate_ids).

Definition fetch_candidate_descriptions (candidate_ids : list string)
  : Traced (gmap string (option string)) :=
  let* response := call (EvMget candidate_ids) (es_mget env candidate_ids) in
  match response with
  | Some docs => ret (collect_descriptions docs ∅)
  | None => ret (all_empty candidate_ids)
  end.

Definition extract_inferred_property (context_tokens : list string)
  : Traced (option string) :=
  let window := PyStr.join " " context_tokens in
  if negb (PyStr.truthy (PyStr.strip window)) then ret None
  else
    let* res := call (EvSearch window) (es_search env window) in
    match res with
    | Some (h :: _) => ret (pid h)
    | Some [] => ret None
    | None => ret None
    end.

Definition semantic_reason_of (score : Q) : string :=
  if PyNum.Qltb (4 # 10) score then "Context match: " +:+ percent score +:+ "%"
  else "Low context overlap".

(** The scoring loop of [disambiguate]. *)
Fixpoint score_candidates (surface : string)
  (descriptions_map : gmap string (option string)) (vector_a : vec env)
  (candidates_to_process : list string) : Traced (list Ranked) :=
  match candidates_to_process with
  | [] => ret []
  | qid :: rest =>
      let desc := default (Some "") (descriptions_map !! qid) in
      let text_to_encode :=
        if PyVal.truthy desc then default "" desc else surface in
      let* vector_b := FalconPipeline.encode_text env text_to_encode in
      let score := cos_sim env vector_a vector_b in
      let score := clamp01 score in
      let entry := {| id := qid;
                      falcon_score := PyNum.round4 score;
                      semantic_reason := semantic_reason_of score |} in
      let* ranked_results := score_candidates surface descriptions_map vector_a rest in
      ret (entry :: ranked_results)
  end.

Definition process_limit (payload : Payload) : Z :=
  let limit_req := default 3%Z (limit payload) in
  let max_c := max_candidates env in
  Z.min limit_req max_c.

Definition candidates_to_process (payload : Payload) : list string :=
  let candidate_ids := default [] (candidates payload) in
  PyList.slice_to candidate_ids (process_limit payload).

Definition disambiguate (payload : Payload) : Traced Response :=
  if negb (payload_truthy payload) then
    ret (ErrorResponse "400 Bad Request: Empty payload")
  else
    let surface := default "" (surface_form payload) in
    let raw_context := default [] (context_window payload) in
    let to_process := candidates_to_process payload in
    if negb (PyList.truthy to_process) then ret (Result None [])
    else
      let clean_context := preprocess_context raw_context in
      let context_str := PyStr.join " " clean_context in
      let* inferred_pid := extract_inferred_property clean_context in
      let* descriptions_map := fetch_candidate_descriptions to_process in
      let input_text := surface +:+ " " +:+ context_str in
      let* vector_a := FalconPipeline.encode_text env input_text in
      let* ranked_results :=
        score_candidates surface descriptions_map vector_a to_process in
      let ranked_results := PySort.sort_desc falcon_score ranked_results in
      ret (Result inferred_pid ranked_results).

End WithEnv.

End Main.

(* ===================================================================== *)
(** ** A concrete world, for running the pipeline *)
(* ===================================================================== *)

Module Demo.

(** Two entities with a description, one known without any text. *)
Definition entities (qid : string) : option MgetDoc :=
  if String.eqb qid "Q90" then
    Some (DocFound "Q90" {| description := Text "capital city of France"; label := Text "Paris" |})
  else if String.eqb qid "Q47746" then
    Some (DocFound "Q47746" {| description := Text ""; label := Text "Paris Hilton" |})
  else if String.eqb qid "Q1" then
    Some (DocFound "Q1" {| description := Absent; label := Null |})
  else None.

Definition mget (qids : list string) : option (list MgetDoc) :=
  Some (map (fun q => default (DocMissing q) (entities q)) qids).

Definition search (query : string) : option (list Hit) :=
  if String.eqb query "buried in" then Some [ {| pid := Some "P119" |} ]
  else Some [].

(** A toy embedding: the text itself; similarity is read off a table. *)
Definition similarity (a b : string) : Q :=
  if String.eqb b "capital city of France" then 80004 # 100000
  else if String.eqb b "Paris Hilton" then 1 # 2
  else if String.eqb b "" then (-3) # 10
  else 9 # 10.

Definition env : Env :=
  {| max_candidates := 10;
     keep := default_keep;
     stopwords := load_stopwords (Some ["# noise"; "the"; " Is "; ""; "I"; "love"; "of"]);
     vec := string;
     encode := fun s => s;
     cos_sim := similarity;
     es_search := search;
     es_mget := mget |}.

(** The same world with an entity store that is down. *)
Definition env_down : Env :=
  {| max_candidates := 10;
     keep := default_keep;
     stopwords := stopwords env;
     vec := string;
     encode := fun s => s;
     cos_sim := similarity;
     es_search := fun _ => None;
     es_mget := fun _ => None |}.

Definition request (sf : string) (ctx cands : list string) : Payload :=
  {| surface_form := Some sf; context_window := Some ctx;
     candidates := Some cands; limit := None; other_keys := false |}.

(** The payload [{}]. *)
Definition empty_payload : Payload :=
  {| surface_form := None; context_window := None; candidates := None;
     limit := None; other_keys := false |}.

(** [{"surface_form": "Paris"}]: no candidates. *)
Definition only_surface : Payload :=
  {| surface_form := Some "Paris"; context_window := None; candidates := None;
     limit := None; other_keys := false |}.

(** [{"context_window": ["visiting"], "candidates": ["Q90", "Q47746"]}]:
    no surface form. *)
Definition no_surface : Payload :=
  {| surface_form := None; context_window := Some ["visiting"];
     candidates := Some ["Q90"; "Q47746"]; limit := None; other_keys := false |}.

Definition with_limit (l : Z) (cands : list string) : Payload :=
  {| surface_form := Some "Paris"; context_window := Some [];
     candidates := Some cands; limit := Some l; other_keys := false |}.

End Demo.

(** The demo world with an entity store that answers without documents. *)
Module DemoSilent.

Definition env : Env :=
  {| max_candidates := max_candidates Demo.env;
     keep := default_keep;
     stopwords := stopwords Demo.env;
     vec := string;
     encode := fun s => s;
     cos_sim := Demo.similarity;
     es_search := Demo.search;
     es_mget := fun _ => Some [] |}.

End DemoSilent.

(** The demo world when the stopword file is missing. *)
Module DemoNoStopwords.

Definition env : Env :=
  {| max_candidates := max_candidates Demo.env;
     keep := default_keep;
     stopwords := load_stopwords None;
     vec := string;
     encode := fun s => s;
     cos_sim := Demo.similarity;
     es_search := Demo.search;
     es_mget := Demo.mget |}.

End DemoNoStopwords.

(* ===================================================================== *)
(** ** More of Python's lists: ranges and two-sided slices *)
(* ===================================================================== *)

Module PyRange.

(** An index of a slice, brought into the bounds of a list of length [n]:
    a negative index counts from the end. *)
Definition norm_index (n k : Z) : Z :=
  if (k <? 0)%Z then Z.max 0 (n + k) else Z.min k n.

(** [l[start:stop]] *)
Definition slice {A : Type} (l : list A) (start stop : Z) : list A :=
  let n := Z.of_nat (length l) in
  let a := norm_index n start in
  let b := norm_index n stop in
  firstn (Z.to_nat (b - a)) (skipn (Z.to_nat a) l).

(** [range(a, b)] *)
Definition range (a b : Z) : list Z :=
  map (fun k => (a + Z.of_nat k)%Z) (seq 0 (Z.to_nat (b - a))).

End PyRange.

(* ===================================================================== *)
(** ** [src/falcon/preprocessing.py], the n-gram generator *)
(* ===================================================================== *)

Module FalconNGrams.

(** [generate_ngrams(tokens, n_min, n_max)]: the outer loop runs over the
    sizes, the inner loop over the start positions. *)
Definition generate_ngrams (tokens : list string) (n_min n_max : Z) : list string :=
  let count := Z.of_nat (length tokens) in
  flat_map
    (fun n =>
       map (fun i => PyStr.join " " (PyRange.slice tokens i (i + n)))
         (PyRange.range 0 (count - n + 1)))
    (PyRange.range n_min (n_max + 1)).

(** The defaults of the signature: [n_min=1], [n_max=6]. *)
Definition generate_ngrams_default (tokens : list string) : list string :=
  generate_ngrams tokens 1 6.

End FalconNGrams.

(* ===================================================================== *)
(** ** Vocabulary of the statements *)
(* ===================================================================== *)

(** The n-grams of one size [n], by position. *)
Definition windows (tokens : list string) (n : nat) : list string :=
  map (fun i => PyStr.join " " (firstn n (skipn i tokens)))
    (seq 0 (length tokens + 1 - n)).

(** What the data model asks of a token of the compressed context. *)
Definition compressed_token_ok (env : Env) (t : string) : Prop :=
  t <> "" /\ PyStr.lower t = t /\ PyStr.all_chars (keep env) t = true
  /\ t ∉ stopwords env.

Section Keyed.
Context {A : Type} (key : A -> Q).

(** The entries of [l] whose key equals [s], in the order of [l]. *)
Definition with_key (s : Q) (l : list A) : list A :=
  List.filter (fun x => Qeq_bool (key x) s) l.

Definition desc (a b : A) : Prop := (key b <= key a)%Q.

End Keyed.

Definition ranked_of (r : Response) : list Ranked :=
  match r with
  | Result _ rs => rs
  | ErrorResponse _ => []
  end.

(** The text that is embedded for a candidate: its description, or the
    surface form when the description is empty or absent. *)
Definition text_for (surface : string) (descriptions_map : gmap string string)
  (qid : string) : string :=
  let desc := default "" (descriptions_map !! qid) in
  if PyStr.truthy desc then desc else surface.

(** An entry whose score and rationale come from the clamped cosine
    similarity [s] of two embeddings: the score is [s] rounded, the
    rationale is [reason s]. *)
Definition scored_by (env : Env) (reason : Q -> string) (r : Ranked) : Prop :=
  exists a b : vec env,
    let s := clamp01 (cos_sim env a b) in
    falcon_score r = PyNum.round4 s /\ semantic_reason r = reason s.

(** A score in [[0,1]] with at most four decimal digits. *)
Definition score_ok (r : Ranked) : Prop :=
  (0 <= falcon_score r)%Q /\ (falcon_score r <= 1)%Q
  /\ exists k : Z, (0 <= k <= 10000)%Z /\ falcon_score r = (inject_Z k / 10000)%Q.

Section Intermediate.
Context (env : Env).

(** The intermediate values of [disambiguate] on a payload. *)
Definition main_surface (payload : Payload) : string :=
  default "" (surface_form payload).

Definition main_clean (payload : Payload) : list string :=
  Main.preprocess_context env (default [] (context_window payload)).

(** The mapping that the resolver returned, as [disambiguate] reads it. *)
Definition main_fetched (payload : Payload) : gmap string (option string) :=
  value (Main.fetch_candidate_descriptions env (Main.candidates_to_process env payload)).

(** The same mapping with a stored [None] read as the empty string. *)
Definition main_descriptions (payload : Payload) : gmap string string :=
  default "" <$> main_fetched payload.

Definition main_input_text (payload : Payload) : string :=
  main_surface payload +:+ " " +:+ PyStr.join " " (main_clean payload).

(** [ranked_results] as the loop leaves it, before the sort. *)
Definition main_unsorted (payload : Payload) : list Ranked :=
  value (Main.score_candidates env (main_surface payload) (main_fetched payload)
           (encode env (main_input_text payload))
           (Main.candidates_to_process env payload)).

(** The intermediate values of [run]. *)
Definition run_clean (raw_context : list string) : list string :=
  FalconPreprocessor.clean_context_window env raw_context.

Definition run_descriptions (candidate_ids : list string) : gmap string string :=
  value (FalconPipeline._fetch_descriptions env candidate_ids).

Definition run_input_text (surface : string) (raw_context : list string) : string :=
  PyStr.strip (surface +:+ " " +:+ PyStr.join " " (run_clean raw_context)).

Definition run_unsorted (surface : string) (raw_context candidate_ids : list string)
  : list Ranked :=
  value (FalconPipeline.score_candidates env surface (run_descriptions candidate_ids)
           (encode env (run_input_text surface raw_context)) candidate_ids).

End Intermediate.

(** The shape of a stably sorted answer: [rs] rearranges [unsorted],
    whose identifiers are [qids] in order. *)
Definition stably_ranked (rs : list Ranked) (qids : list string) : Prop :=
  exists unsorted : list Ranked,
    map id unsorted = qids
    /\ Permutation rs unsorted
    /\ StronglySorted (desc falcon_score) rs
    /\ forall s : Q, with_key falcon_score s rs = with_key falcon_score s unsorted.

(** The wording of a rationale: the string without the decimal digits of
    the percentage that is printed into it. *)
Definition wording (reason : string) : string :=
  PyStr.filter_chars (fun c => negb (PyStr.in_range 48 57 c)) reason.

(* ===================================================================== *)
(** ** [evaluation/evaluate_falcon_api.py], the benchmark loop *)
(* ===================================================================== *)

Module EvaluateFalconApi.

(** One test case of the dataset; a field is [None] when its key is
    absent. *)
Record Case := {
  case_surface_form : option string;
  case_context : option (list string);
  case_expected_id : option string;
  case_candidates : option (list string)
}.

(** What [requests.post] returns: the status code, the decoded body and
    the time the call took, in milliseconds. *)
Record Reply := {
  status_code : Z;
  body : Response;
  elapsed_ms : Q
}.

(** One row of [results]. *)
Record Row := {
  row_surface_form : string;
  expected : string;
  predicted : option string;
  correct : bool;
  score : Q;
  latency_ms : Q
}.

(** The four values that [evaluate_api] returns. *)
Record Tally := {
  results : list Row;
  latencies : list Q;
  correct_matches : nat;
  total_processed : nat
}.

Definition empty_tally : Tally :=
  {| results := []; latencies := []; correct_matches := 0; total_processed := 0 |}.

(** The request that the loop sends for a case. *)
Definition payload_of (surface : string) (context candidate_ids : list string) : Payload :=
  {| surface_form := Some surface;
     context_window := Some context;
     candidates := Some candidate_ids;
     limit := Some 5%Z;
     other_keys := false |}.

Definition opt_truthy (o : option string) : bool :=
  match o with
  | Some s => PyStr.truthy s
  | None => false
  end.

(** A case that the loop does not skip. *)
Definition complete (case : Case) : bool :=
  opt_truthy (case_surface_form case)
  && opt_truthy (case_expected_id case)
  && PyList.truthy (default [] (case_candidates case)).

Section WithServer.
(** [post payload] is [None] when the request raises. *)
Context (post : Payload -> option Reply).

(** The body of the loop. *)
Definition step (acc : Tally) (case : Case) : Tally :=
  let surface := default "" (case_surface_form case) in
  let context := default [] (case_context case) in
  let expected_id := default "" (case_expected_id case) in
  let candidate_ids := default [] (case_candidates case) in
  if negb (complete case) then acc
  else
    match post (payload_of surface context candidate_ids) with
    | None => acc
    | Some response =>
        let latency := elapsed_ms response in
        let latencies' := latencies acc ++ [latency] in
        if (status_code response =? 200)%Z then
          let ranked := ranked_of (body response) in
          let predicted_id :=
            match ranked with r :: _ => Some (id r) | [] => None end in
          let is_correct := bool_decide (predicted_id = Some expected_id) in
          {| results :=
               results acc
               ++ [ {| row_surface_form := surface;
                       expected := expected_id;
                       predicted := predicted_id;
                       correct := is_correct;
                       score := match ranked with
                                | r :: _ => falcon_score r
                                | [] => 0
                                end;
                       latency_ms := latency |} ];
             latencies := latencies';
             correct_matches :=
               if is_correct then S (correct_matches acc) else correct_matches acc;
             total_processed := S (total_processed acc) |}
        else
          {| results := results acc;
             latencies := latencies';
             correct_matches := correct_matches acc;
             total_processed := total_processed acc |}
    end.

(** [evaluate_api(dataset, limit)]: a limit that is [None] or 0 leaves
    the dataset as it is. *)
Definition evaluate_api (dataset : list Case) (limit : option Z) : Tally :=
  let dataset :=
    match limit with
    | Some l => if (l =? 0)%Z then dataset else PyList.slice_to dataset l
    | None => dataset
    end in
  fold_left step dataset empty_tally.

End WithServer.

(** The status code that the endpoint sends with a response: 500 with the
    error payload, 200 otherwise. *)
Definition http_status (r : Response) : Z :=
  match r with
  | Result _ _ => 200
  | ErrorResponse _ => 500
  end.

(** The endpoint of [main.py] as the server, with a clock that tells how
    long a request took. *)
Definition endpoint (env : Env) (clock : Payload -> Q) (payload : Payload)
  : option Reply :=
  let r := value (Main.disambiguate env payload) in
  Some {| status_code := http_status r; body := r; elapsed_ms := clock payload |}.

End EvaluateFalconApi.

(** A small dataset: a complete case, a case without expected identifier,
    and a complete case without context. *)
Module DemoBenchmark.

Definition dataset : list EvaluateFalconApi.Case :=
  [ {| EvaluateFalconApi.case_surface_form := Some "Paris";
       EvaluateFalconApi.case_context := Some ["visiting"];
       EvaluateFalconApi.case_expected_id := Some "Q90";
       EvaluateFalconApi.case_candidates := Some ["Q90"; "Q47746"] |};
    {| EvaluateFalconApi.case_surface_form := Some "Paris";
       EvaluateFalconApi.case_context := None;
       EvaluateFalconApi.case_expected_id := None;
       EvaluateFalconApi.case_candidates := Some ["Q90"; "Q47746"] |};
    {| EvaluateFalconApi.case_surface_form := Some "Paris";
       EvaluateFalconApi.case_context := None;
       EvaluateFalconApi.case_expected_id := Some "Q47746";
       EvaluateFalconApi.case_candidates := Some ["Q90"; "Q47746"] |} ].

End DemoBenchmark.

(** [fs] is the score of the similarity [c]: [c] brought into [[0,1]] (a
    negative similarity becomes 0, a similarity above 1 becomes 1) and then
    rounded to four decimals, that is to the nearest multiple [k/10000],
    to the even [k] when [c] lies half-way between two of them. *)
Definition score_of_similarity (c fs : Q) : Prop :=
  exists k : Z,
    (0 <= k <= 10000)%Z
    /\ fs = (inject_Z k / 10000)%Q
    /\ ((c < 0)%Q -> k = 0%Z)
    /\ ((1 < c)%Q -> k = 10000%Z)
    /\ ((0 <= c)%Q -> (c <= 1)%Q ->
        (inject_Z k - c * 10000 <= 1 # 2)%Q
        /\ (c * 10000 - inject_Z k <= 1 # 2)%Q
        /\ ((inject_Z k - c * 10000 == 1 # 2)%Q \/ (c * 10000 - inject_Z k == 1 # 2)%Q ->
            Z.even k = true)).

(** What the benchmark loop keeps true of its four results. *)
Definition tally_ok (t : EvaluateFalconApi.Tally) : Prop :=
  EvaluateFalconApi.total_processed t = length (EvaluateFalconApi.results t)
  /\ EvaluateFalconApi.correct_matches t
     = length (List.filter EvaluateFalconApi.correct (EvaluateFalconApi.results t))
  /\ (length (EvaluateFalconApi.results t) <= length (EvaluateFalconApi.latencies t))%nat
  /\ Forall (fun row =>
               (EvaluateFalconApi.correct row = true
                <-> EvaluateFalconApi.predicted row = Some (EvaluateFalconApi.expected row))
               /\ EvaluateFalconApi.row_surface_form row <> ""
               /\ EvaluateFalconApi.expected row <> "")
       (EvaluateFalconApi.results t).

(** A row that comes from a complete case of the dataset [D] and predicts
    one of the candidates that the endpoint processes for it. *)
Definition row_from (env : Env) (D : list EvaluateFalconApi.Case)
  (row : EvaluateFalconApi.Row) : Prop :=
  exists case q,
    In case D
    /\ EvaluateFalconApi.complete case = true
    /\ EvaluateFalconApi.case_expected_id case = Some (EvaluateFalconApi.expected row)
    /\ EvaluateFalconApi.predicted row = Some q
    /\ In q (PyList.slice_to (default [] (EvaluateFalconApi.case_candidates case))
               (Z.min 5 (max_candidates env))).

(* ===================================================================== *)
(** ** Properties of the string functions *)
(* ===================================================================== *)

Section StringFacts.

Lemma lower_char_idem (c : ascii) :
  PyStr.lower_char (PyStr.lower_char c) = PyStr.lower_char c.
Proof.
  destruct c as [b0 b1 b2 b3 b4 b5 b6 b7].
  destruct b0, b1, b2, b3, b4, b5, b6, b7; reflexivity.
Qed.

Lemma lower_idem (s : string) : PyStr.lower (PyStr.lower s) = PyStr.lower s.
Proof.
  induction s as [|c s IH]; simpl; [reflexivity|].
  now rewrite lower_char_idem, IH.
Qed.

(** Dropping characters from a lowercased string leaves it lowercased. *)
Lemma lower_filter_lower (p : ascii -> bool) (s : string) :
  PyStr.lower (PyStr.filter_chars p (PyStr.lower s))
  = PyStr.filter_chars p (PyStr.lower s).
Proof.
  induction s as [|c s IH]; simpl; [reflexivity|].
  destruct (p (PyStr.lower_char c)); simpl; [|exact IH].
  now rewrite lower_char_idem, IH.
Qed.

Lemma filter_chars_idem (p : ascii -> bool) (s : string) :
  PyStr.filter_chars p (PyStr.filter_chars p s) = PyStr.filter_chars p s.
Proof.
  induction s as [|c s IH]; simpl; [reflexivity|].
  destruct (p c) eqn:Hp; simpl; [|exact IH].
  now rewrite Hp, IH.
Qed.

Lemma all_chars_filter (p : ascii -> bool) (s : string) :
  PyStr.all_chars p (PyStr.filter_chars p s) = true.
Proof.
  induction s as [|c s IH]; simpl; [reflexivity|].
  destruct (p c) eqn:Hp; simpl; [|exact IH].
  now rewrite Hp, IH.
Qed.

Lemma truthy_nonempty (s : string) : PyStr.truthy s = true <-> s <> "".
Proof. destruct s; simpl; split; congruence. Qed.

End StringFacts.

(* ===================================================================== *)
(** ** Context compression *)
(* ===================================================================== *)

Section Compression.
Context (env : Env).

Lemma clean_token_fixed (token : string) :
  let t := FalconPreprocessor.clean_regex_sub env (PyStr.lower token) in
  FalconPreprocessor.clean_regex_sub env (PyStr.lower t) = t.
Proof.
  unfold FalconPreprocessor.clean_regex_sub; simpl.
  now rewrite lower_filter_lower, filter_chars_idem.
Qed.

Lemma clean_context_window_ok (ctx : list string) :
  Forall (compressed_token_ok env) (FalconPreprocessor.clean_context_window env ctx).
Proof.
  induction ctx as [|token rest IH]; simpl; [constructor|].
  destruct (PyStr.truthy _) eqn:Ht; simpl; [|exact IH].
  case_bool_decide as Hs; simpl; [exact IH|].
  constructor; [|exact IH].
  unfold compressed_token_ok, FalconPreprocessor.clean_regex_sub in *.
  repeat split.
  - now apply truthy_nonempty.
  - apply lower_filter_lower.
  - apply all_chars_filter.
  - exact Hs.
Qed.

Lemma clean_context_window_idem (ctx : list string) :
  FalconPreprocessor.clean_context_window env
    (FalconPreprocessor.clean_context_window env ctx)
  = FalconPreprocessor.clean_context_window env ctx.
Proof.
  induction ctx as [|token rest IH]; simpl; [reflexivity|].
  destruct (PyStr.truthy _) eqn:Ht; simpl; [|exact IH].
  case_bool_decide as Hs; simpl; [exact IH|].
  rewrite clean_token_fixed, Ht. simpl.
  rewrite bool_decide_eq_false_2 by exact Hs. simpl.
  now rewrite IH.
Qed.

Lemma preprocess_context_filter (ctx : list string) :
  Main.preprocess_context env ctx
  = List.filter (fun w => negb (bool_decide (PyStr.lower w ∈ stopwords env))) ctx.
Proof.
  induction ctx as [|w rest IH]; simpl; [reflexivity|].
  now destruct (negb _); rewrite IH.
Qed.

Lemma preprocess_context_idem (ctx : list string) :
  Main.preprocess_context env (Main.preprocess_context env ctx)
  = Main.preprocess_context env ctx.
Proof.
  induction ctx as [|w rest IH]; simpl; [reflexivity|].
  destruct (negb _) eqn:Hw; simpl; [|exact IH].
  now rewrite Hw, IH.
Qed.

Lemma preprocess_context_kept (ctx : list string) :
  Forall (fun w => In w ctx /\ PyStr.lower w ∉ stopwords env)
    (Main.preprocess_context env ctx).
Proof.
  induction ctx as [|w rest IH]; simpl; [constructor|].
  case_bool_decide as Hs; simpl.
  - eapply Forall_impl; [exact IH|]. simpl. intros a [Ha Hn]. split; [now right|exact Hn].
  - constructor; [split; [now left|exact Hs]|].
    eapply Forall_impl; [exact IH|]. simpl. intros a [Ha Hn]. split; [now right|exact Hn].
Qed.

End Compression.

(** C4 (as amended).  Every token that [FalconPreprocessor.clean_context_window]
    returns is non-empty, equal to its own lowercase form, made only of
    characters that the cleaning pattern keeps, and outside the stopword
    set.  The endpoint's [preprocess_context] is only a stopword filter:
    it returns, unchanged and in order, the input tokens whose lowercase
    form is not a stopword. *)
Theorem C4_compressed_tokens (env : Env) (ctx : list string) :
  Forall (compressed_token_ok env) (FalconPreprocessor.clean_context_window env ctx)
  /\ Main.preprocess_context env ctx
     = List.filter (fun w => negb (bool_decide (PyStr.lower w ∈ stopwords env))) ctx
  /\ Forall (fun w => In w ctx /\ PyStr.lower w ∉ stopwords env)
       (Main.preprocess_context env ctx).
Proof.
  split; [apply clean_context_window_ok|].
  split; [apply preprocess_context_filter|apply preprocess_context_kept].
Qed.

(** C4, counterexample.  With the default pattern and a stopword list
    loaded from a file, the endpoint's compressed context of
    [["Hilton"; ""; "hotel,"]] is that list itself: it holds a token with a
    capital, an empty token and a token with a comma. *)
Lemma C4_counterexample :
  Main.preprocess_context Demo.env ["Hilton"; ""; "hotel,"] = ["Hilton"; ""; "hotel,"]
  /\ ~ Forall (compressed_token_ok Demo.env)
         (Main.preprocess_context Demo.env ["Hilton"; ""; "hotel,"]).
Proof.
  assert (E : Main.preprocess_context Demo.env ["Hilton"; ""; "hotel,"]
              = ["Hilton"; ""; "hotel,"]) by (vm_compute; reflexivity).
  split; [exact E|].
  rewrite E. intros H.
  apply Forall_inv in H. destruct H as (_ & Hl & _).
  vm_compute in Hl. discriminate Hl.
Qed.

(** C8.  Compression is idempotent, for the preprocessor's
    [clean_context_window] and for the endpoint's [preprocess_context]. *)
Theorem C8_compression_idempotent (env : Env) (ctx : list string) :
  FalconPreprocessor.clean_context_window env
    (FalconPreprocessor.clean_context_window env ctx)
  = FalconPreprocessor.clean_context_window env ctx
  /\ Main.preprocess_context env (Main.preprocess_context env ctx)
     = Main.preprocess_context env ctx.
Proof.
  split; [apply clean_context_window_idem|apply preprocess_context_idem].
Qed.

(* ===================================================================== *)
(** ** Numbers: clamping and rounding *)
(* ===================================================================== *)

Section NumberFacts.

Lemma Qltb_lt (x y : Q) : PyNum.Qltb x y = true <-> (x < y)%Q.
Proof.
  unfold PyNum.Qltb. rewrite negb_true_iff.
  split.
  - intros H. apply Qnot_le_lt. intros Hle.
    apply Qle_bool_iff in Hle. congruence.
  - intros H. destruct (Qle_bool y x) eqn:E; [|reflexivity].
    apply Qle_bool_iff in E. exfalso. exact (Qlt_not_le _ _ H E).
Qed.

Lemma Qltb_ge (x y : Q) : PyNum.Qltb x y = false <-> (y <= x)%Q.
Proof.
  unfold PyNum.Qltb. rewrite negb_false_iff. apply Qle_bool_iff.
Qed.

Lemma clamp01_cases (c : Q) :
  (clamp01 c == if PyNum.Qltb c 0 then 0 else if PyNum.Qltb 1 c then 1 else c)%Q.
Proof.
  unfold clamp01, PyNum.min2, PyNum.max2.
  destruct (PyNum.Qltb c 1) eqn:H1.
  - apply Qltb_lt in H1.
    destruct (PyNum.Qltb 0 c) eqn:H0.
    + apply Qltb_lt in H0.
      assert (E0 : PyNum.Qltb c 0 = false) by (apply Qltb_ge; now apply Qlt_le_weak).
      assert (E1 : PyNum.Qltb 1 c = false) by (apply Qltb_ge; now apply Qlt_le_weak).
      rewrite E0, E1. reflexivity.
    + apply Qltb_ge in H0.
      destruct (PyNum.Qltb c 0) eqn:E0; [reflexivity|].
      apply Qltb_ge in E0.
      assert (E1 : PyNum.Qltb 1 c = false) by (apply Qltb_ge; now apply Qlt_le_weak).
      rewrite E1. now apply Qle_antisym.
  - apply Qltb_ge in H1.
    assert (E : PyNum.Qltb 0 1 = true) by reflexivity. rewrite E.
    assert (E0 : PyNum.Qltb c 0 = false).
    { apply Qltb_ge. apply Qle_trans with 1%Q; [discriminate|exact H1]. }
    rewrite E0.
    destruct (PyNum.Qltb 1 c) eqn:E1; [reflexivity|].
    apply Qltb_ge in E1. now apply Qle_antisym.
Qed.

Lemma clamp01_bounds (c : Q) : (0 <= clamp01 c)%Q /\ (clamp01 c <= 1)%Q.
Proof.
  rewrite (clamp01_cases c).
  destruct (PyNum.Qltb c 0) eqn:E0; [split; discriminate|].
  destruct (PyNum.Qltb 1 c) eqn:E1; [split; discriminate|].
  apply Qltb_ge in E0, E1. now split.
Qed.

Lemma round_half_even_near (q : Q) :
  let f := Qfloor q in
  PyNum.round_half_even q = f
  \/ (PyNum.round_half_even q = (f + 1)%Z /\ (1 # 2 <= q - inject_Z f)%Q).
Proof.
  unfold PyNum.round_half_even. simpl.
  destruct (Qcompare_spec (q - inject_Z (Qfloor q)) (1 # 2)) as [E|L|G].
  - destruct (Z.even (Qfloor q)); [now left|right].
    split; [reflexivity|]. rewrite E. apply Qle_refl.
  - now left.
  - right. split; [reflexivity|]. now apply Qlt_le_weak.
Qed.

Lemma round_half_even_range (q : Q) (n : Z) :
  (0 <= q)%Q -> (q <= inject_Z n)%Q ->
  (0 <= PyNum.round_half_even q <= n)%Z.
Proof.
  intros H0 Hn.
  assert (F0 : (0 <= Qfloor q)%Z).
  { change 0%Z with (Qfloor 0). now apply Qfloor_resp_le. }
  assert (Fn : (Qfloor q <= n)%Z).
  { rewrite <- (Qfloor_Z n). now apply Qfloor_resp_le. }
  destruct (round_half_even_near q) as [E|[E Hh]]; simpl in *; rewrite E.
  - lia.
  - split; [lia|].
    destruct (Z.eq_dec (Qfloor q) n) as [En|Hne]; [|lia].
    exfalso. rewrite En in Hh. lra.
Qed.

Lemma round4_range (x : Q) :
  (0 <= x)%Q -> (x <= 1)%Q ->
  exists k : Z, (0 <= k <= 10000)%Z /\ PyNum.round4 x = (inject_Z k / 10000)%Q.
Proof.
  intros H0 H1.
  exists (PyNum.round_half_even (x * 10000)). split; [|reflexivity].
  apply round_half_even_range.
  - apply Qmult_le_0_compat; [exact H0|discriminate].
  - change (inject_Z 10000) with 10000%Q. lra.
Qed.

Lemma scaled_bounds (k : Z) :
  (0 <= k <= 10000)%Z ->
  (0 <= inject_Z k / 10000)%Q /\ (inject_Z k / 10000 <= 1)%Q.
Proof.
  intros [Hk0 Hk1]. split.
  - apply Qle_shift_div_l; [reflexivity|].
    rewrite Qmult_0_l. change 0%Q with (inject_Z 0). now rewrite <- Zle_Qle.
  - apply Qle_shift_div_r; [reflexivity|].
    rewrite Qmult_1_l. change 10000%Q with (inject_Z 10000). now rewrite <- Zle_Qle.
Qed.

End NumberFacts.

(* ===================================================================== *)
(** ** The sort: permutation, order, stability *)
(* ===================================================================== *)

Section SortFacts.
Context {A : Type} (key : A -> Q).

Lemma insert_desc_perm (x : A) (l : list A) :
  Permutation (PySort.insert_desc key x l) (x :: l).
Proof.
  induction l as [|y l IH]; simpl; [reflexivity|].
  destruct (PyNum.Qltb (key x) (key y)); [|reflexivity].
  rewrite IH. apply perm_swap.
Qed.

Lemma sort_desc_perm (l : list A) : Permutation (PySort.sort_desc key l) l.
Proof.
  induction l as [|x l IH]; simpl; [reflexivity|].
  rewrite insert_desc_perm. now constructor.
Qed.

(** An entry is moved behind another one only when its key is strictly
    smaller, so no two entries of equal key are ever exchanged. *)
Lemma insert_desc_with_key (s : Q) (x : A) (l : list A) :
  with_key key s (PySort.insert_desc key x l) = with_key key s (x :: l).
Proof.
  induction l as [|y l IH]; [reflexivity|].
  cbn [PySort.insert_desc].
  destruct (PyNum.Qltb (key x) (key y)) eqn:Hlt; [|reflexivity].
  apply Qltb_lt in Hlt.
  unfold with_key in *. cbn [List.filter] in *. rewrite IH.
  destruct (Qeq_bool (key x) s) eqn:Ex, (Qeq_bool (key y) s) eqn:Ey; try reflexivity.
  apply Qeq_bool_iff in Ex, Ey. exfalso.
  rewrite Ex, Ey in Hlt. exact (Qlt_irrefl _ Hlt).
Qed.

Lemma sort_desc_stable (s : Q) (l : list A) :
  with_key key s (PySort.sort_desc key l) = with_key key s l.
Proof.
  induction l as [|x l IH]; [reflexivity|].
  cbn [PySort.sort_desc]. rewrite insert_desc_with_key.
  unfold with_key in *. cbn [List.filter]. now rewrite IH.
Qed.

Lemma filter_split (p : A -> bool) (l u v : list A) (r : A) :
  List.filter p l = u ++ r :: v ->
  exists l1 l2, l = l1 ++ r :: l2 /\ List.filter p l1 = u /\ List.filter p l2 = v.
Proof.
  revert u. induction l as [|x l IH]; intros u E.
  - destruct u; discriminate E.
  - cbn [List.filter] in E. destruct (p x) eqn:Hx.
    + destruct u as [|y u]; cbn [app] in E.
      * injection E as -> Ev. exists [], l. now rewrite Ev.
      * injection E as -> Eu. destruct (IH u Eu) as (l1 & l2 & -> & F1 & F2).
        exists (y :: l1), l2. cbn [List.filter app]. now rewrite Hx, F1, F2.
    + destruct (IH u E) as (l1 & l2 & -> & F1 & F2).
      exists (x :: l1), l2. cbn [List.filter app]. now rewrite Hx, F1, F2.
Qed.

(** Stability, read on two entries: when [r1] stands before [r2] in [l]
    and their keys are equal, [r1] stands before [r2] in every list that
    has the same entries per key in the same order. *)
Lemma stable_pair (l l' a b c : list A) (r1 r2 : A) :
  (forall s, with_key key s l = with_key key s l') ->
  l = a ++ r1 :: b ++ r2 :: c ->
  (key r1 == key r2)%Q ->
  exists a' b' c', l' = a' ++ r1 :: b' ++ r2 :: c'.
Proof.
  intros H -> E. specialize (H (key r2)). unfold with_key in H.
  rewrite List.filter_app in H. cbn [List.filter] in H.
  rewrite List.filter_app in H. cbn [List.filter] in H.
  assert (E1 : Qeq_bool (key r1) (key r2) = true) by now apply Qeq_bool_iff.
  assert (E2 : Qeq_bool (key r2) (key r2) = true) by (apply Qeq_bool_iff; reflexivity).
  rewrite E1, E2 in H. symmetry in H.
  destruct (filter_split _ _ _ _ _ H) as (a' & m & -> & _ & Hm).
  destruct (filter_split _ _ _ _ _ Hm) as (b' & c' & -> & _ & _).
  now exists a', b', c'.
Qed.

Lemma insert_desc_sorted (x : A) (l : list A) :
  StronglySorted (desc key) l -> StronglySorted (desc key) (PySort.insert_desc key x l).
Proof.
  induction 1 as [|y l Hs IH Hy]; simpl.
  - repeat constructor.
  - destruct (PyNum.Qltb (key x) (key y)) eqn:Hlt.
    + apply Qltb_lt in Hlt. constructor; [exact IH|].
      rewrite insert_desc_perm. constructor; [|exact Hy].
      now apply Qlt_le_weak.
    + apply Qltb_ge in Hlt. constructor; [now constructor|].
      constructor; [exact Hlt|].
      eapply Forall_impl; [exact Hy|].
      intros z Hz. unfold desc in *. eapply Qle_trans; eassumption.
Qed.

Lemma sort_desc_sorted (l : list A) : StronglySorted (desc key) (PySort.sort_desc key l).
Proof.
  induction l as [|x l IH]; simpl; [constructor|].
  now apply insert_desc_sorted.
Qed.

End SortFacts.

(* ===================================================================== *)
(** ** Traces *)
(* ===================================================================== *)

Section TraceFacts.
Context {A B : Type}.

Lemma value_bind (m : Traced A) (k : A -> Traced B) :
  value (bind m k) = value (k (value m)).
Proof. unfold bind, value. now destruct (k (fst m)). Qed.

Lemma trace_bind (m : Traced A) (k : A -> Traced B) :
  trace (bind m k) = trace m ++ trace (k (value m)).
Proof. unfold bind, value, trace. now destruct (k (fst m)). Qed.

Lemma traced_eta (m : Traced A) : m = (value m, trace m).
Proof. now destruct m. Qed.

End TraceFacts.

(* ===================================================================== *)
(** ** The scoring loops *)
(* ===================================================================== *)

Lemma scored_by_score_ok (env : Env) (reason : Q -> string) (r : Ranked) :
  scored_by env reason r -> score_ok r.
Proof.
  intros (a & b & Hs & _). simpl in Hs.
  destruct (clamp01_bounds (cos_sim env a b)) as [H0 H1].
  destruct (round4_range _ H0 H1) as (k & Hk & Ek).
  unfold score_ok. rewrite Hs, Ek.
  destruct (scaled_bounds k Hk) as [B0 B1].
  split; [exact B0|]. split; [exact B1|].
  now exists k.
Qed.

Section ScoringLoops.
Context (env : Env).

Lemma main_score_ids surface dm va (qids : list string) :
  map id (value (Main.score_candidates env surface dm va qids)) = qids.
Proof.
  induction qids as [|q rest IH]; [reflexivity|].
  cbn [Main.score_candidates]. rewrite !value_bind. cbn [value ret fst map id].
  f_equal. exact IH.
Qed.

Lemma main_score_scored surface dm va (qids : list string) :
  Forall (scored_by env Main.semantic_reason_of)
    (value (Main.score_candidates env surface dm va qids)).
Proof.
  induction qids as [|q rest IH]; [constructor|].
  cbn [Main.score_candidates]. rewrite !value_bind. cbn [value ret fst].
  constructor; [|exact IH].
  eexists va, _. cbn. split; reflexivity.
Qed.

(** The text that the endpoint's loop embeds, read on the mapping with
    [None] taken as the empty string. *)
Lemma main_text (surface : string) (dm : gmap string (option string)) (q : string) :
  (if PyVal.truthy (default (Some "") (dm !! q))
   then default "" (default (Some "") (dm !! q)) else surface)
  = text_for surface (default "" <$> dm) q.
Proof.
  unfold text_for. rewrite lookup_fmap.
  destruct (dm !! q) as [[d|]|]; reflexivity.
Qed.

Lemma main_score_trace surface dm va (qids : list string) :
  trace (Main.score_candidates env surface dm va qids)
  = map (fun q => EvEncode (text_for surface (default "" <$> dm) q)) qids.
Proof.
  induction qids as [|q rest IH]; [reflexivity|].
  cbn [Main.score_candidates]. rewrite !trace_bind.
  cbn [trace ret snd map FalconPipeline.encode_text call value fst app].
  rewrite app_nil_r, main_text. f_equal. exact IH.
Qed.

Lemma run_score_ids surface dm va (qids : list string) :
  map id (value (FalconPipeline.score_candidates env surface dm va qids)) = qids.
Proof.
  induction qids as [|q rest IH]; [reflexivity|].
  cbn [FalconPipeline.score_candidates]. rewrite !value_bind. cbn [value ret fst map id].
  f_equal. exact IH.
Qed.

Lemma run_score_scored surface dm va (qids : list string) :
  Forall (scored_by env FalconPipeline._generate_reason)
    (value (FalconPipeline.score_candidates env surface dm va qids)).
Proof.
  induction qids as [|q rest IH]; [constructor|].
  cbn [FalconPipeline.score_candidates]. rewrite !value_bind. cbn [value ret fst].
  constructor; [|exact IH].
  eexists va, _. cbn. split; reflexivity.
Qed.

Lemma run_score_trace surface dm va (qids : list string) :
  trace (FalconPipeline.score_candidates env surface dm va qids)
  = map (fun q => EvEncode (text_for surface dm q)) qids.
Proof.
  induction qids as [|q rest IH]; [reflexivity|].
  cbn [FalconPipeline.score_candidates]. rewrite !trace_bind.
  cbn [trace ret snd map FalconPipeline.encode_text call value fst app].
  rewrite app_nil_r. f_equal. exact IH.
Qed.

End ScoringLoops.

(* ===================================================================== *)
(** ** The two orchestrators, step by step *)
(* ===================================================================== *)

Section Orchestration.
Context (env : Env).

Lemma truthy_cons {A : Type} (l : list A) : l <> [] -> PyList.truthy l = true.
Proof. destruct l; [congruence|reflexivity]. Qed.

Lemma fetch_trace_main (qids : list string) :
  trace (Main.fetch_candidate_descriptions env qids) = [EvMget qids].
Proof.
  unfold Main.fetch_candidate_descriptions. rewrite trace_bind.
  cbn [call trace value fst snd]. now destruct (es_mget env qids).
Qed.

Lemma fetch_trace_run (qids : list string) :
  trace (FalconPipeline._fetch_descriptions env qids) = [EvMget qids].
Proof.
  unfold FalconPipeline._fetch_descriptions. rewrite trace_bind.
  cbn [call trace value fst snd]. now destruct (es_mget env qids).
Qed.

Lemma disambiguate_empty_payload (payload : Payload) :
  Main.payload_truthy payload = false ->
  Main.disambiguate env payload
  = (ErrorResponse "400 Bad Request: Empty payload", []).
Proof. intros H. unfold Main.disambiguate. now rewrite H. Qed.

Lemma disambiguate_no_candidates (payload : Payload) :
  Main.payload_truthy payload = true ->
  Main.candidates_to_process env payload = [] ->
  Main.disambiguate env payload = (Result None [], []).
Proof. intros H E. unfold Main.disambiguate. now rewrite H, E. Qed.

Lemma disambiguate_scored (payload : Payload) :
  Main.payload_truthy payload = true ->
  Main.candidates_to_process env payload <> [] ->
  Main.disambiguate env payload
  = (Result (value (Main.extract_inferred_property env (main_clean env payload)))
       (PySort.sort_desc falcon_score (main_unsorted env payload)),
     trace (Main.extract_inferred_property env (main_clean env payload))
     ++ EvMget (Main.candidates_to_process env payload)
        :: EvEncode (main_input_text env payload)
        :: map (fun q => EvEncode (text_for (main_surface payload)
                                     (main_descriptions env payload) q))
             (Main.candidates_to_process env payload)).
Proof.
  intros H E. apply truthy_cons in E.
  rewrite (traced_eta (Main.disambiguate env payload)).
  unfold Main.disambiguate. rewrite H, E. cbn [negb].
  f_equal; try reflexivity.
  rewrite !trace_bind, ?value_bind. rewrite fetch_trace_main, main_score_trace.
  cbn [trace ret snd FalconPipeline.encode_text call value fst].
  rewrite app_nil_r. reflexivity.
Qed.

Lemma run_no_candidates (surface : string) (raw_context : list string) :
  FalconPipeline.run env surface raw_context []
  = (Result (value (FalconPipeline._infer_property_from_ngrams env (run_clean env raw_context))) [],
     trace (FalconPipeline._infer_property_from_ngrams env (run_clean env raw_context))).
Proof.
  rewrite (traced_eta (FalconPipeline.run env surface raw_context [])).
  unfold FalconPipeline.run. cbn [PyList.truthy negb].
  rewrite value_bind, trace_bind. cbn [ret trace value fst snd].
  now rewrite app_nil_r.
Qed.

Lemma run_scored (surface : string) (raw_context candidate_ids : list string) :
  candidate_ids <> [] ->
  FalconPipeline.run env surface raw_context candidate_ids
  = (Result (value (FalconPipeline._infer_property_from_ngrams env (run_clean env raw_context)))
       (PySort.sort_desc falcon_score (run_unsorted env surface raw_context candidate_ids)),
     trace (FalconPipeline._infer_property_from_ngrams env (run_clean env raw_context))
     ++ EvMget candidate_ids
        :: EvEncode (run_input_text env surface raw_context)
        :: map (fun q => EvEncode (text_for surface (run_descriptions env candidate_ids) q))
             candidate_ids).
Proof.
  intros E. apply truthy_cons in E.
  rewrite (traced_eta (FalconPipeline.run env surface raw_context candidate_ids)).
  unfold FalconPipeline.run. rewrite E. cbn [negb].
  f_equal; try reflexivity.
  rewrite !trace_bind, ?value_bind. rewrite fetch_trace_run, run_score_trace.
  cbn [trace ret snd FalconPipeline.encode_text call value fst].
  rewrite app_nil_r. reflexivity.
Qed.

(** The property search is the only call that inference makes. *)
Lemma infer_trace_search (tokens : list string) :
  forallb is_search (trace (FalconPipeline._infer_property_from_ngrams env tokens)) = true.
Proof.
  unfold FalconPipeline._infer_property_from_ngrams.
  destruct (PyList.truthy tokens); cbn [negb]; [|reflexivity].
  rewrite trace_bind. cbn [call trace value fst snd].
  now destruct (es_search env _) as [[|h hs]|].
Qed.

Lemma infer_empty :
  FalconPipeline._infer_property_from_ngrams env [] = (None, []).
Proof. reflexivity. Qed.

End Orchestration.

(* ===================================================================== *)
(** ** The empty-result path *)
(* ===================================================================== *)




(* ===================================================================== *)
(** ** Candidates are neither invented nor dropped *)
(* ===================================================================== *)

Section Preservation.
Context (env : Env).

Lemma sorted_ids (unsorted : list Ranked) (qids : list string) :
  map id unsorted = qids ->
  let rs := PySort.sort_desc falcon_score unsorted in
  length rs = length qids
  /\ Permutation (map id rs) qids
  /\ (list_to_set (map id rs) : gset string) = list_to_set qids.
Proof.
  intros E rs.
  assert (P : Permutation (map id rs) qids).
  { rewrite <- E. apply Permutation_map. apply sort_desc_perm. }
  split; [|split].
  - rewrite <- (length_map id rs). now apply Permutation_length.
  - exact P.
  - now apply list_to_set_perm_L.
Qed.

Lemma disambiguate_preserves (payload : Payload) :
  match value (Main.disambiguate env payload) with
  | Result _ rs =>
      length rs = length (Main.candidates_to_process env payload)
      /\ Permutation (map id rs) (Main.candidates_to_process env payload)
      /\ (list_to_set (map id rs) : gset string)
         = list_to_set (Main.candidates_to_process env payload)
  | ErrorResponse _ => Main.payload_truthy payload = false
  end.
Proof.
  destruct (Main.payload_truthy payload) eqn:Ht.
  - destruct (Main.candidates_to_process env payload) as [|q qs] eqn:Ec.
    + rewrite (disambiguate_no_candidates env payload Ht Ec). cbn [value fst].
      repeat split; constructor.
    + assert (Hne : Main.candidates_to_process env payload <> [])
        by (rewrite Ec; discriminate).
      rewrite (disambiguate_scored env payload Ht Hne). cbn [value fst].
      rewrite <- Ec. apply sorted_ids. apply main_score_ids.
  - rewrite (disambiguate_empty_payload env payload Ht). reflexivity.
Qed.

Lemma run_preserves (surface : string) (raw_context candidate_ids : list string) :
  exists inferred rs,
    value (FalconPipeline.run env surface raw_context candidate_ids)
    = Result inferred rs
    /\ length rs = length candidate_ids
    /\ Permutation (map id rs) candidate_ids
    /\ (list_to_set (map id rs) : gset string) = list_to_set candidate_ids.
Proof.
  destruct candidate_ids as [|q qs] eqn:Ec.
  - rewrite run_no_candidates. cbn [value fst].
    eexists _, []. repeat split; constructor.
  - assert (Hne : candidate_ids <> []) by (rewrite Ec; discriminate).
    rewrite <- Ec. rewrite (run_scored env surface raw_context candidate_ids Hne).
    cbn [value fst]. eexists _, _. split; [reflexivity|].
    apply sorted_ids. apply run_score_ids.
Qed.

Lemma payload_falsy_fields (payload : Payload) :
  Main.payload_truthy payload = false
  <-> surface_form payload = None /\ context_window payload = None
      /\ candidates payload = None /\ limit payload = None
      /\ other_keys payload = false.
Proof.
  unfold Main.payload_truthy.
  destruct payload as [[sf|] [cw|] [cs|] [l|] [|]]; cbn; split;
    first [ discriminate
          | intros (H1 & H2 & H3 & H4 & H5); discriminate
          | intros _; repeat split
          | reflexivity ].
Qed.

End Preservation.

(** C2.  The endpoint truncates the candidate list to its first [k]
    entries, [k = min(limit, max_candidates)] with the limit read as 3 when
    it is absent (a negative [k] counts from the end of the list, as a
    Python slice does).  The ranked candidates of the response carry
    exactly the identifiers of that truncated list, each as often as it
    occurs there: the lengths agree, the identifiers are a permutation of
    the truncated list, and the two sets of identifiers are equal.  The
    endpoint sends an error payload instead of a result only for the empty
    payload; [run], which does not truncate, always returns a result. *)
Theorem C2_candidates_preserved (env : Env) :
  (forall payload : Payload,
      let cands := default [] (candidates payload) in
      let k := Z.min (default 3%Z (limit payload)) (max_candidates env) in
      let len := Z.of_nat (length cands) in
      let stop := if (k <? 0)%Z then Z.max 0 (len + k) else Z.min k len in
      let truncated := firstn (Z.to_nat stop) cands in
      match value (Main.disambiguate env payload) with
      | Result _ rs =>
          length rs = length truncated
          /\ Permutation (map id rs) truncated
          /\ (list_to_set (map id rs) : gset string) = list_to_set truncated
      | ErrorResponse _ =>
          surface_form payload = None /\ context_window payload = None
          /\ candidates payload = None /\ limit payload = None
          /\ other_keys payload = false
      end)
  /\ (forall (surface : string) (raw_context candidate_ids : list string),
        exists inferred rs,
          value (FalconPipeline.run env surface raw_context candidate_ids)
          = Result inferred rs
          /\ length rs = length candidate_ids
          /\ Permutation (map id rs) candidate_ids
          /\ (list_to_set (map id rs) : gset string) = list_to_set candidate_ids).
Proof.
  split; [|apply run_preserves].
  intros payload cands k len stop truncated.
  pose proof (disambiguate_preserves env payload) as Hp.
  assert (Et : Main.candidates_to_process env payload = truncated) by reflexivity.
  destruct (value (Main.disambiguate env payload)) as [inferred rs|msg].
  - now rewrite Et in Hp.
  - now apply payload_falsy_fields.
Qed.

(* ===================================================================== *)
(** ** Scores *)
(* ===================================================================== *)

Section Scores.
Context (env : Env).

Lemma Forall_sort_desc (P : Ranked -> Prop) (l : list Ranked) :
  Forall P l -> Forall P (PySort.sort_desc falcon_score l).
Proof.
  intros H. eapply Permutation_Forall; [|exact H].
  symmetry. apply sort_desc_perm.
Qed.

Lemma main_ranked_scored (payload : Payload) :
  Forall (scored_by env Main.semantic_reason_of)
    (ranked_of (value (Main.disambiguate env payload))).
Proof.
  destruct (Main.payload_truthy payload) eqn:Ht.
  - destruct (Main.candidates_to_process env payload) as [|q qs] eqn:Ec.
    + rewrite (disambiguate_no_candidates env payload Ht Ec). constructor.
    + assert (Hne : Main.candidates_to_process env payload <> [])
        by (rewrite Ec; discriminate).
      rewrite (disambiguate_scored env payload Ht Hne). cbn [value fst ranked_of].
      apply Forall_sort_desc. apply main_score_scored.
  - rewrite (disambiguate_empty_payload env payload Ht). constructor.
Qed.

Lemma run_ranked_scored (surface : string) (raw_context candidate_ids : list string) :
  Forall (scored_by env FalconPipeline._generate_reason)
    (ranked_of (value (FalconPipeline.run env surface raw_context candidate_ids))).
Proof.
  destruct candidate_ids as [|q qs] eqn:Ec.
  - rewrite run_no_candidates. constructor.
  - assert (Hne : candidate_ids <> []) by (rewrite Ec; discriminate).
    rewrite <- Ec. rewrite (run_scored env surface raw_context candidate_ids Hne).
    cbn [value fst ranked_of].
    apply Forall_sort_desc. apply run_score_scored.
Qed.

End Scores.

(* ===================================================================== *)
(** ** The ranking *)
(* ===================================================================== *)

Section Stability.
Context (env : Env).

Lemma empty_payload_no_candidates (payload : Payload) :
  Main.payload_truthy payload = false ->
  Main.candidates_to_process env payload = [].
Proof.
  unfold Main.payload_truthy, Main.candidates_to_process. intros H.
  destruct (candidates payload) as [cs|] eqn:Ec.
  - exfalso. rewrite (bool_decide_eq_true_2 (is_Some (Some cs))) in H by eauto.
    rewrite !orb_true_r in H. cbn in H. discriminate H.
  - cbn [default]. unfold PyList.slice_to. apply firstn_nil.
Qed.

Lemma sort_stably_ranked (unsorted : list Ranked) (qids : list string) :
  map id unsorted = qids ->
  stably_ranked (PySort.sort_desc falcon_score unsorted) qids.
Proof.
  intros E. exists unsorted. split; [exact E|]. split; [|split].
  - apply sort_desc_perm.
  - apply sort_desc_sorted.
  - intros s. apply sort_desc_stable.
Qed.

Lemma stably_ranked_pair (rs : list Ranked) (qids : list string)
  (a b c : list Ranked) (r1 r2 : Ranked) :
  stably_ranked rs qids ->
  rs = a ++ r1 :: b ++ r2 :: c ->
  (falcon_score r1 == falcon_score r2)%Q ->
  exists a' b' c', qids = a' ++ id r1 :: b' ++ id r2 :: c'.
Proof.
  intros (unsorted & Ei & _ & _ & Hs) Er Eq.
  destruct (stable_pair falcon_score rs unsorted a b c r1 r2 Hs Er Eq)
    as (a' & b' & c' & ->).
  exists (map id a'), (map id b'), (map id c').
  rewrite <- Ei. rewrite map_app. cbn [map]. rewrite map_app. reflexivity.
Qed.

Lemma main_stably_ranked (payload : Payload) :
  stably_ranked (ranked_of (value (Main.disambiguate env payload)))
    (Main.candidates_to_process env payload).
Proof.
  destruct (Main.payload_truthy payload) eqn:Ht.
  - destruct (Main.candidates_to_process env payload) as [|q qs] eqn:Ec.
    + rewrite (disambiguate_no_candidates env payload Ht Ec). cbn [value fst ranked_of].
      exists []. repeat split; constructor.
    + assert (Hne : Main.candidates_to_process env payload <> [])
        by (rewrite Ec; discriminate).
      rewrite (disambiguate_scored env payload Ht Hne). cbn [value fst ranked_of].
      apply sort_stably_ranked. rewrite <- Ec. apply main_score_ids.
  - rewrite (disambiguate_empty_payload env payload Ht). cbn [value fst ranked_of].
    rewrite (empty_payload_no_candidates payload Ht).
    exists []. repeat split; constructor.
Qed.

Lemma run_stably_ranked (surface : string) (raw_context candidate_ids : list string) :
  stably_ranked
    (ranked_of (value (FalconPipeline.run env surface raw_context candidate_ids)))
    candidate_ids.
Proof.
  destruct candidate_ids as [|q qs] eqn:Ec.
  - rewrite run_no_candidates. cbn [value fst ranked_of].
    exists []. repeat split; constructor.
  - assert (Hne : candidate_ids <> []) by (rewrite Ec; discriminate).
    rewrite <- Ec. rewrite (run_scored env surface raw_context candidate_ids Hne).
    cbn [value fst ranked_of].
    apply sort_stably_ranked. apply run_score_ids.
Qed.

End Stability.

(** C9.  In the answer of the endpoint and in the answer of [run]: when an
    entry [r1] stands before an entry [r2] in [ranked_candidates] and both
    have the same score, the identifier of [r1] stands before the
    identifier of [r2] in the truncated candidate list.  More precisely the
    answer rearranges the entries that the loop produced in candidate
    order, and for every score the entries of that score come in the
    loop's order. *)
Theorem C9_sort_stable (env : Env) :
  (forall (payload : Payload) (a b c : list Ranked) (r1 r2 : Ranked),
      ranked_of (value (Main.disambiguate env payload)) = a ++ r1 :: b ++ r2 :: c ->
      (falcon_score r1 == falcon_score r2)%Q ->
      exists a' b' c',
        Main.candidates_to_process env payload = a' ++ id r1 :: b' ++ id r2 :: c')
  /\ (forall (surface : string) (raw_context candidate_ids : list string)
        (a b c : list Ranked) (r1 r2 : Ranked),
        ranked_of (value (FalconPipeline.run env surface raw_context candidate_ids))
        = a ++ r1 :: b ++ r2 :: c ->
        (falcon_score r1 == falcon_score r2)%Q ->
        exists a' b' c', candidate_ids = a' ++ id r1 :: b' ++ id r2 :: c')
  /\ (forall payload : Payload,
        stably_ranked (ranked_of (value (Main.disambiguate env payload)))
          (Main.candidates_to_process env payload))
  /\ (forall (surface : string) (raw_context candidate_ids : list string),
        stably_ranked
          (ranked_of (value (FalconPipeline.run env surface raw_context candidate_ids)))
          candidate_ids).
Proof.
  split; [|split; [|split]].
  - intros payload a b c r1 r2 Er Eq.
    eapply stably_ranked_pair; [apply (main_stably_ranked env payload)|exact Er|exact Eq].
  - intros surface raw_context candidate_ids a b c r1 r2 Er Eq.
    eapply stably_ranked_pair;
      [apply (run_stably_ranked env surface raw_context candidate_ids)|exact Er|exact Eq].
  - apply main_stably_ranked.
  - apply run_stably_ranked.
Qed.

Lemma C9_witness :
  exists a' b' c',
    ["Q90"; "Q1"; "Q47746"; "Q5"] = a' ++ "Q1" :: b' ++ "Q5" :: c'.
Proof.
  apply (proj1 (proj2 (C9_sort_stable Demo.env))
           "Paris" ["Buried"; "in"] ["Q90"; "Q1"; "Q47746"; "Q5"]
           []
           []
           [ {| id := "Q90"; falcon_score := 8000 # 10000;
                semantic_reason := "Strong Context Match (80%)" |};
             {| id := "Q47746"; falcon_score := 5000 # 10000;
                semantic_reason := "Moderate Context Overlap (50%)" |} ]
           {| id := "Q1"; falcon_score := 9000 # 10000;
              semantic_reason := "Strong Context Match (90%)" |}
           {| id := "Q5"; falcon_score := 9000 # 10000;
              semantic_reason := "Strong Context Match (90%)" |}).
  - vm_compute. reflexivity.
  - reflexivity.
Defined.

(* ===================================================================== *)
(** ** Input errors *)
(* ===================================================================== *)

Section InputErrors.
Context (env : Env).

Lemma extract_trace_search (tokens : list string) :
  forallb is_search (trace (Main.extract_inferred_property env tokens)) = true.
Proof.
  unfold Main.extract_inferred_property.
  destruct (PyStr.truthy _); cbn [negb]; [|reflexivity].
  rewrite trace_bind. cbn [call trace value fst snd].
  now destruct (es_search env _) as [[|h hs]|].
Qed.

Lemma search_not_encode (t : list event) :
  forallb is_search t = true -> List.filter is_encode t = [].
Proof.
  induction t as [|e t IH]; [reflexivity|].
  cbn [forallb List.filter]. intros H. apply andb_true_iff in H as [He Ht].
  destruct e; try discriminate He. cbn [is_encode]. now apply IH.
Qed.

Lemma filter_encode_map (f : string -> string) (l : list string) :
  List.filter is_encode (map (fun q => EvEncode (f q)) l)
  = map (fun q => EvEncode (f q)) l.
Proof.
  induction l as [|x l IH]; [reflexivity|].
  cbn [map List.filter is_encode]. now rewrite IH.
Qed.

Lemma no_candidates_key (payload : Payload) :
  candidates payload = None -> Main.candidates_to_process env payload = [].
Proof.
  intros E. unfold Main.candidates_to_process. rewrite E. cbn [default].
  unfold PyList.slice_to. apply firstn_nil.
Qed.

End InputErrors.

(** C7 (as amended).  A request without the [candidates] key is answered
    without any call to a collaborator: with the error payload when the
    payload is empty (no key at all), with the empty result in every other
    case.  A request that only lacks the surface form is not cut short:
    the surface form is read as the empty string, and when the truncated
    candidate list is not empty the scorer embeds the query text and one
    text per truncated candidate. *)
Theorem C7_input_errors (env : Env) (payload : Payload) :
  (candidates payload = None ->
   trace (Main.disambiguate env payload) = []
   /\ (surface_form payload = None /\ context_window payload = None
       /\ limit payload = None /\ other_keys payload = false ->
       value (Main.disambiguate env payload)
       = ErrorResponse "400 Bad Request: Empty payload")
   /\ (surface_form payload <> None \/ context_window payload <> None
       \/ limit payload <> None \/ other_keys payload = true ->
       value (Main.disambiguate env payload) = Result None []))
  /\ (surface_form payload = None ->
      Main.candidates_to_process env payload <> [] ->
      (exists inferred rs,
          value (Main.disambiguate env payload) = Result inferred rs
          /\ length rs = length (Main.candidates_to_process env payload))
      /\ List.filter is_encode (trace (Main.disambiguate env payload))
         = EvEncode (" " +:+ PyStr.join " " (main_clean env payload))
           :: map (fun q => EvEncode (text_for "" (main_descriptions env payload) q))
                (Main.candidates_to_process env payload)).
Proof.
  split.
  - intros Ec. pose proof (no_candidates_key env payload Ec) as Etp.
    pose proof (payload_falsy_fields payload) as Hf.
    destruct (Main.payload_truthy payload) eqn:Ht.
    + rewrite (disambiguate_no_candidates env payload Ht Etp).
      split; [reflexivity|]. split; [|reflexivity].
      intros (H1 & H2 & H3 & H4). exfalso.
      assert (Hfalse : true = false) by (apply Hf; now repeat split).
      discriminate Hfalse.
    + rewrite (disambiguate_empty_payload env payload Ht).
      split; [reflexivity|]. split; [reflexivity|].
      destruct (proj1 Hf eq_refl) as (H1 & H2 & _ & H4 & H5).
      intros [H|[H|[H|H]]]; [now destruct H|now destruct H|now destruct H|congruence].
  - intros Es Hne.
    assert (Ht : Main.payload_truthy payload = true).
    { destruct (Main.payload_truthy payload) eqn:Ht; [reflexivity|].
      exfalso. apply Hne. now apply empty_payload_no_candidates. }
    split.
    + pose proof (disambiguate_preserves env payload) as Hp.
      rewrite (disambiguate_scored env payload Ht Hne) in *. cbn [value fst] in *.
      eexists _, _. split; [reflexivity|]. apply Hp.
    + rewrite (disambiguate_scored env payload Ht Hne). cbn [trace snd].
      rewrite List.filter_app.
      rewrite (search_not_encode _ (extract_trace_search env _)).
      cbn [app List.filter is_encode]. rewrite filter_encode_map.
      unfold main_input_text, main_surface. rewrite Es. reflexivity.
Qed.

Lemma C7_witness :
  (trace (Main.disambiguate Demo.env Demo.only_surface) = []
   /\ value (Main.disambiguate Demo.env Demo.only_surface) = Result None []
   /\ value (Main.disambiguate Demo.env Demo.empty_payload)
      = ErrorResponse "400 Bad Request: Empty payload")
  /\ List.length (List.filter is_encode (trace (Main.disambiguate Demo.env Demo.no_surface))) = 3%nat.
Proof.
  split; [split; [|split]|].
  - apply (proj1 (proj1 (C7_input_errors Demo.env Demo.only_surface) eq_refl)).
  - apply (proj2 (proj2 (proj1 (C7_input_errors Demo.env Demo.only_surface) eq_refl))).
    left. discriminate.
  - apply (proj1 (proj2 (proj1 (C7_input_errors Demo.env Demo.empty_payload) eq_refl))).
    repeat split.
  - rewrite (proj2 (proj2 (C7_input_errors Demo.env Demo.no_surface)
                      eq_refl ltac:(vm_compute; discriminate))).
    reflexivity.
Defined.

(** C7, counterexample.  The request
    [{"context_window": ["visiting"], "candidates": ["Q90", "Q47746"]}] has
    no surface form; the endpoint answers it with two ranked candidates,
    and the embedder was called for the query text and for each
    candidate. *)
Lemma C7_counterexample :
  surface_form Demo.no_surface = None
  /\ Main.disambiguate Demo.env Demo.no_surface
     = (Result None
          [ {| id := "Q90"; falcon_score := PyNum.round4 (80004 # 100000);
               semantic_reason := "Context match: 80%" |};
            {| id := "Q47746"; falcon_score := PyNum.round4 (1 # 2);
               semantic_reason := "Context match: 50%" |} ],
        [ EvSearch "visiting"; EvMget ["Q90"; "Q47746"]; EvEncode " visiting";
          EvEncode "capital city of France"; EvEncode "Paris Hilton" ])
  /\ value (Main.disambiguate Demo.env Demo.no_surface) <> Result None []
  /\ (forall msg, value (Main.disambiguate Demo.env Demo.no_surface) <> ErrorResponse msg)
  /\ existsb is_encode (trace (Main.disambiguate Demo.env Demo.no_surface)) = true.
Proof.
  assert (E : Main.disambiguate Demo.env Demo.no_surface
     = (Result None
          [ {| id := "Q90"; falcon_score := PyNum.round4 (80004 # 100000);
               semantic_reason := "Context match: 80%" |};
            {| id := "Q47746"; falcon_score := PyNum.round4 (1 # 2);
               semantic_reason := "Context match: 50%" |} ],
        [ EvSearch "visiting"; EvMget ["Q90"; "Q47746"]; EvEncode " visiting";
          EvEncode "capital city of France"; EvEncode "Paris Hilton" ]))
    by (vm_compute; reflexivity).
  split; [reflexivity|]. split; [exact E|]. rewrite E. cbn [value trace fst snd].
  split; [discriminate|]. split; [intros msg; discriminate|reflexivity].
Qed.

(* ===================================================================== *)
(** ** The limit *)
(* ===================================================================== *)

Section Limit.

Lemma slice_to_length_le {A : Type} (l : list A) (k : Z) :
  (0 <= k)%Z -> (Z.of_nat (length (PyList.slice_to l k)) <= k)%Z.
Proof.
  intros Hk. unfold PyList.slice_to.
  destruct (Z.ltb_spec k 0) as [Hn|_]; [lia|].
  pose proof (firstn_le_length (Z.to_nat (Z.min k (Z.of_nat (length l)))) l). lia.
Qed.

Lemma slice_to_zero {A : Type} (l : list A) : PyList.slice_to l 0 = [].
Proof.
  unfold PyList.slice_to. cbn [Z.ltb Z.compare].
  replace (Z.to_nat (Z.min 0 (Z.of_nat (length l)))) with 0%nat by lia.
  reflexivity.
Qed.

Lemma slice_to_negative {A : Type} (l : list A) (k : Z) :
  (k < 0)%Z ->
  PyList.slice_to l k = firstn (length l - Z.to_nat (- k)) l.
Proof.
  intros Hk. unfold PyList.slice_to.
  destruct (Z.ltb_spec k 0) as [_|Hn]; [|lia].
  f_equal. lia.
Qed.

End Limit.

(** C10.  Without a [limit] key the limit is 3 and the candidate list is
    cut at [min(3, max_candidates)]; for a configured maximum that is not
    negative, no more than that many candidates are processed and ranked.
    A limit that is not positive is not rejected: it goes into the slice
    as it is, so a limit of 0 leaves no candidate and a negative limit
    [l] leaves the list without its last [-l] entries, and the endpoint
    answers with a result. *)
Theorem C10_default_limit (env : Env) (payload : Payload) :
  (limit payload = None ->
   Main.process_limit env payload = Z.min 3 (max_candidates env)
   /\ Main.candidates_to_process env payload
      = PyList.slice_to (default [] (candidates payload)) (Z.min 3 (max_candidates env))
   /\ ((0 <= max_candidates env)%Z ->
       (Z.of_nat (length (Main.candidates_to_process env payload))
        <= Z.min 3 (max_candidates env))%Z
       /\ (Z.of_nat (length (ranked_of (value (Main.disambiguate env payload))))
           <= Z.min 3 (max_candidates env))%Z))
  /\ (forall l : Z,
        limit payload = Some l -> (l <= 0)%Z -> (0 <= max_candidates env)%Z ->
        (l = 0%Z -> Main.candidates_to_process env payload = [])
        /\ ((l < 0)%Z ->
            Main.candidates_to_process env payload
            = firstn (length (default [] (candidates payload)) - Z.to_nat (- l))
                (default [] (candidates payload)))
        /\ exists inferred rs,
             value (Main.disambiguate env payload) = Result inferred rs
             /\ length rs = length (Main.candidates_to_process env payload)).
Proof.
  split.
  - intros El.
    assert (Ep : Main.process_limit env payload = Z.min 3 (max_candidates env))
      by (unfold Main.process_limit; now rewrite El).
    assert (Ec : Main.candidates_to_process env payload
                 = PyList.slice_to (default [] (candidates payload))
                     (Z.min 3 (max_candidates env)))
      by (unfold Main.candidates_to_process; now rewrite Ep).
    split; [exact Ep|]. split; [exact Ec|].
    intros Hm.
    assert (Hc : (Z.of_nat (length (Main.candidates_to_process env payload))
                  <= Z.min 3 (max_candidates env))%Z)
      by (rewrite Ec; apply slice_to_length_le; lia).
    split; [exact Hc|].
    pose proof (disambiguate_preserves env payload) as Hp.
    destruct (value (Main.disambiguate env payload)) as [ip rs|msg]; cbn [ranked_of].
    + destruct Hp as [Hl _]. now rewrite Hl.
    + cbn [length]. lia.
  - intros l El Hl Hm.
    assert (Ep : Main.process_limit env payload = l)
      by (unfold Main.process_limit; rewrite El; simpl; lia).
    assert (Ec : Main.candidates_to_process env payload
                 = PyList.slice_to (default [] (candidates payload)) l)
      by (unfold Main.candidates_to_process; now rewrite Ep).
    split; [|split].
    + intros ->. rewrite Ec. apply slice_to_zero.
    + intros Hn. rewrite Ec. now apply slice_to_negative.
    + pose proof (disambiguate_preserves env payload) as Hp.
      destruct (value (Main.disambiguate env payload)) as [ip rs|msg].
      * exists ip, rs. split; [reflexivity|apply Hp].
      * exfalso. unfold Main.payload_truthy in Hp. rewrite El in Hp.
        rewrite (bool_decide_eq_true_2 (is_Some (Some l))) in Hp by eauto.
        rewrite !orb_true_r in Hp. cbn in Hp. discriminate Hp.
Qed.

Lemma C10_witness :
  (Z.of_nat (length (Main.candidates_to_process Demo.env
                       (Demo.request "Paris" [] ["Q90"; "Q47746"; "Q1"; "Q5"]))) <= 3)%Z
  /\ Main.candidates_to_process Demo.env (Demo.with_limit (-1) ["Q90"; "Q47746"; "Q1"; "Q5"])
     = ["Q90"; "Q47746"; "Q1"].
Proof.
  split.
  - apply (proj1 (C10_default_limit Demo.env
                    (Demo.request "Paris" [] ["Q90"; "Q47746"; "Q1"; "Q5"])));
      [reflexivity | vm_compute; discriminate].
  - apply (proj1 (proj2 (proj2 (C10_default_limit Demo.env
                    (Demo.with_limit (-1) ["Q90"; "Q47746"; "Q1"; "Q5"])) (-1)%Z
                    eq_refl ltac:(lia) ltac:(vm_compute; discriminate)))).
    lia.
Defined.

(* ===================================================================== *)
(** ** Rationales *)
(* ===================================================================== *)

Section Rationales.

Lemma generate_reason_strong (s : Q) :
  (8 # 10 < s)%Q ->
  FalconPipeline._generate_reason s = "Strong Context Match (" +:+ percent s +:+ "%)".
Proof.
  intros H. unfold FalconPipeline._generate_reason.
  now rewrite (proj2 (Qltb_lt _ _) H).
Qed.

Lemma generate_reason_moderate (s : Q) :
  (4 # 10 < s)%Q -> (s <= 8 # 10)%Q ->
  FalconPipeline._generate_reason s = "Moderate Context Overlap (" +:+ percent s +:+ "%)".
Proof.
  intros H4 H8. unfold FalconPipeline._generate_reason.
  now rewrite (proj2 (Qltb_ge _ _) H8), (proj2 (Qltb_lt _ _) H4).
Qed.

Lemma generate_reason_low (s : Q) :
  (s <= 4 # 10)%Q ->
  FalconPipeline._generate_reason s = "Low Context Similarity".
Proof.
  intros H4. unfold FalconPipeline._generate_reason.
  assert (H8 : (s <= 8 # 10)%Q) by (eapply Qle_trans; [exact H4|discriminate]).
  now rewrite (proj2 (Qltb_ge _ _) H8), (proj2 (Qltb_ge _ _) H4).
Qed.

Lemma semantic_reason_match (s : Q) :
  (4 # 10 < s)%Q ->
  Main.semantic_reason_of s = "Context match: " +:+ percent s +:+ "%".
Proof.
  intros H. unfold Main.semantic_reason_of. now rewrite (proj2 (Qltb_lt _ _) H).
Qed.

Lemma semantic_reason_low (s : Q) :
  (s <= 4 # 10)%Q -> Main.semantic_reason_of s = "Low context overlap".
Proof.
  intros H. unfold Main.semantic_reason_of. now rewrite (proj2 (Qltb_ge _ _) H).
Qed.

End Rationales.

(** C5 (as amended).  In the answer of [FalconPipeline.run] the rationale
    of a candidate is chosen by its clamped score before rounding:
    above 0.8 the strong-match text, above 0.4 and at most 0.8 the
    moderate-overlap text, at most 0.4 the low-similarity text.  In the
    answer of the endpoint the rationale has the single threshold 0.4 on
    the clamped score before rounding: above it the context-match text
    with the percentage, otherwise the low-overlap text. *)
Theorem C5_rationale_thresholds (env : Env) :
  (forall s : Q,
      ((8 # 10 < s)%Q ->
       FalconPipeline._generate_reason s
       = "Strong Context Match (" +:+ percent s +:+ "%)")
      /\ ((4 # 10 < s)%Q -> (s <= 8 # 10)%Q ->
          FalconPipeline._generate_reason s
          = "Moderate Context Overlap (" +:+ percent s +:+ "%)")
      /\ ((s <= 4 # 10)%Q ->
          FalconPipeline._generate_reason s = "Low Context Similarity")
      /\ ((4 # 10 < s)%Q ->
          Main.semantic_reason_of s = "Context match: " +:+ percent s +:+ "%")
      /\ ((s <= 4 # 10)%Q -> Main.semantic_reason_of s = "Low context overlap"))
  /\ (forall (surface : string) (raw_context candidate_ids : list string),
        Forall (scored_by env FalconPipeline._generate_reason)
          (ranked_of (value (FalconPipeline.run env surface raw_context candidate_ids))))
  /\ (forall payload : Payload,
        Forall (scored_by env Main.semantic_reason_of)
          (ranked_of (value (Main.disambiguate env payload)))).
Proof.
  split; [|split].
  - intros s. split; [apply generate_reason_strong|].
    split; [apply generate_reason_moderate|].
    split; [apply generate_reason_low|].
    split; [apply semantic_reason_match|apply semantic_reason_low].
  - apply run_ranked_scored.
  - apply main_ranked_scored.
Qed.

Lemma C5_witness :
  FalconPipeline._generate_reason (9 # 10) = "Strong Context Match (90%)"
  /\ FalconPipeline._generate_reason (8 # 10) = "Moderate Context Overlap (80%)"
  /\ FalconPipeline._generate_reason (4 # 10) = "Low Context Similarity"
  /\ Main.semantic_reason_of (9 # 10) = "Context match: 90%"
  /\ Main.semantic_reason_of (4 # 10) = "Low context overlap".
Proof.
  pose proof (proj1 (C5_rationale_thresholds Demo.env)) as H.
  split; [apply (proj1 (H (9 # 10))); reflexivity|].
  split; [apply (proj1 (proj2 (H (8 # 10)))); [reflexivity|discriminate]|].
  split; [apply (proj1 (proj2 (proj2 (H (4 # 10))))); discriminate|].
  split; [apply (proj1 (proj2 (proj2 (proj2 (H (9 # 10)))))); reflexivity|].
  apply (proj2 (proj2 (proj2 (proj2 (H (4 # 10)))))); discriminate.
Defined.

(** C5, counterexample.  The endpoint ranks [Q1] with score 0.9 and
    [Q47746] with score 0.5: one score is above 0.8 and the other between
    0.4 and 0.8, and both rationales have the same wording.  And [run]
    returns [Q90], whose similarity is 0.80004, with the score 0.8 and the
    strong-match rationale. *)
Lemma C5_counterexample :
  (exists r1 r2 : Ranked,
      In r1 (ranked_of (value (Main.disambiguate Demo.env
               (Demo.request "Paris" ["visiting"] ["Q90"; "Q47746"; "Q1"]))))
      /\ In r2 (ranked_of (value (Main.disambiguate Demo.env
                  (Demo.request "Paris" ["visiting"] ["Q90"; "Q47746"; "Q1"]))))
      /\ (8 # 10 < falcon_score r1)%Q
      /\ (4 # 10 < falcon_score r2)%Q /\ (falcon_score r2 <= 8 # 10)%Q
      /\ semantic_reason r1 = "Context match: 90%"
      /\ semantic_reason r2 = "Context match: 50%"
      /\ wording (semantic_reason r1) = wording (semantic_reason r2))
  /\ (exists r : Ranked,
        In r (ranked_of (value (FalconPipeline.run Demo.env "Paris" ["visiting"] ["Q90"])))
        /\ (falcon_score r == 8 # 10)%Q
        /\ semantic_reason r = "Strong Context Match (80%)").
Proof.
  split.
  - exists {| id := "Q1"; falcon_score := PyNum.round4 (9 # 10);
              semantic_reason := "Context match: 90%" |},
           {| id := "Q47746"; falcon_score := PyNum.round4 (1 # 2);
              semantic_reason := "Context match: 50%" |}.
    split; [vm_compute; auto|]. split; [vm_compute; auto|].
    repeat split; try reflexivity. discriminate.
  - exists {| id := "Q90"; falcon_score := PyNum.round4 (80004 # 100000);
              semantic_reason := "Strong Context Match (80%)" |}.
    split; [vm_compute; auto|]. split; reflexivity.
Qed.

(* ===================================================================== *)
(** ** Description resolution *)
(* ===================================================================== *)

Section Descriptions.
Context (env : Env).

Lemma all_empty_lookup (qids : list string) (q : string) :
  In q qids -> FalconPipeline.all_empty qids !! q = Some "".
Proof.
  unfold FalconPipeline.all_empty.
  induction qids as [|x qids IH]; [intros []|].
  intros [->|Hin]; cbn [map list_to_map foldr].
  - apply lookup_insert_eq.
  - destruct (decide (x = q)) as [->|Hne].
    + apply lookup_insert_eq.
    + rewrite lookup_insert_ne by exact Hne. now apply IH.
Qed.





Lemma run_fetch_value (qids : list string) :
  value (FalconPipeline._fetch_descriptions env qids)
  = match es_mget env qids with
    | Some docs => FalconPipeline.collect_descriptions docs ∅
    | None => FalconPipeline.all_empty qids
    end.
Proof.
  unfold FalconPipeline._fetch_descriptions. rewrite value_bind.
  cbn [call value fst]. now destruct (es_mget env qids).
Qed.

Lemma main_fetch_value (qids : list string) :
  value (Main.fetch_candidate_descriptions env qids)
  = match es_mget env qids with
    | Some docs => Main.collect_descriptions docs ∅
    | None => Main.all_empty qids
    end.
Proof.
  unfold Main.fetch_candidate_descriptions. rewrite value_bind.
  cbn [call value fst]. now destruct (es_mget env qids).
Qed.


End Descriptions.




(* ===================================================================== *)
(** ** The n-gram generator *)
(* ===================================================================== *)

Section NGramFacts.

Lemma range_length (a b : Z) : length (PyRange.range a b) = Z.to_nat (b - a).
Proof. unfold PyRange.range. now rewrite length_map, length_seq. Qed.

Lemma range_empty (a b : Z) : (b <= a)%Z -> PyRange.range a b = [].
Proof.
  intros H. unfold PyRange.range.
  replace (Z.to_nat (b - a)) with 0%nat by lia. reflexivity.
Qed.

Lemma seq_from (a len : nat) :
  seq a len = map (fun k => (a + k)%nat) (seq 0 len).
Proof.
  revert a. induction len as [|len IH]; intros a; [reflexivity|].
  cbn [seq map]. f_equal; [lia|].
  rewrite <- (seq_shift len 0), map_map, (IH (S a)). apply map_ext. intros k. lia.
Qed.

Lemma range_split (a m b : Z) :
  (a <= m)%Z -> (m <= b)%Z ->
  PyRange.range a b = PyRange.range a m ++ PyRange.range m b.
Proof.
  intros Ham Hmb. unfold PyRange.range.
  replace (Z.to_nat (b - a)) with (Z.to_nat (m - a) + Z.to_nat (b - m))%nat by lia.
  rewrite seq_app, map_app. f_equal.
  cbn [Nat.add]. rewrite (seq_from (Z.to_nat (m - a)) (Z.to_nat (b - m))).
  rewrite !map_map. apply map_ext_in. intros k _. lia.
Qed.

Lemma flat_map_ext_in {A B : Type} (f g : A -> list B) (l : list A) :
  (forall x, In x l -> f x = g x) -> flat_map f l = flat_map g l.
Proof.
  induction l as [|x l IH]; intros H; [reflexivity|].
  cbn [flat_map]. rewrite (H x) by now left.
  rewrite IH; [reflexivity|]. intros y Hy. apply H. now right.
Qed.

Lemma flat_map_map {A B C : Type} (g : A -> B) (f : B -> list C) (l : list A) :
  flat_map f (map g l) = flat_map (fun x => f (g x)) l.
Proof.
  induction l as [|x l IH]; [reflexivity|]. cbn [map flat_map]. now rewrite IH.
Qed.

Lemma flat_map_nil {A B : Type} (f : A -> list B) (l : list A) :
  (forall x, In x l -> f x = []) -> flat_map f l = [].
Proof.
  intros H. rewrite (flat_map_ext_in f (fun _ => []) l H).
  clear H. induction l as [|x l IH]; [reflexivity|exact IH].
Qed.

(** The slice of a window that lies inside the list. *)
Lemma slice_window {A : Type} (l : list A) (i n : nat) :
  (i + n <= length l)%nat ->
  PyRange.slice l (Z.of_nat i) (Z.of_nat i + Z.of_nat n) = firstn n (skipn i l).
Proof.
  intros H. unfold PyRange.slice, PyRange.norm_index.
  destruct (Z.ltb_spec (Z.of_nat i) 0) as [Hn|_]; [lia|].
  destruct (Z.ltb_spec (Z.of_nat i + Z.of_nat n) 0) as [Hn|_]; [lia|].
  replace (Z.to_nat (Z.min (Z.of_nat i) (Z.of_nat (length l)))) with i by lia.
  f_equal. lia.
Qed.

Lemma size_block (tokens : list string) (n : nat) :
  map (fun i => PyStr.join " " (PyRange.slice tokens i (i + Z.of_nat n)))
    (PyRange.range 0 (Z.of_nat (length tokens) - Z.of_nat n + 1))
  = windows tokens n.
Proof.
  unfold PyRange.range, windows. rewrite map_map.
  replace (Z.to_nat (Z.of_nat (length tokens) - Z.of_nat n + 1 - 0))
    with (length tokens + 1 - n)%nat by lia.
  apply map_ext_in. intros i Hi. apply in_seq in Hi.
  change (0 + Z.of_nat i)%Z with (Z.of_nat i).
  rewrite slice_window by lia. reflexivity.
Qed.

Lemma generate_ngrams_windows (tokens : list string) (n_min n_max : Z) :
  (0 <= n_min)%Z ->
  FalconNGrams.generate_ngrams tokens n_min n_max
  = flat_map (windows tokens) (seq (Z.to_nat n_min) (Z.to_nat (n_max + 1 - n_min))).
Proof.
  intros H. unfold FalconNGrams.generate_ngrams, PyRange.range at 2.
  rewrite flat_map_map.
  rewrite (seq_from (Z.to_nat n_min) (Z.to_nat (n_max + 1 - n_min))).
  rewrite flat_map_map. apply flat_map_ext_in. intros k _.
  replace (n_min + Z.of_nat k)%Z with (Z.of_nat (Z.to_nat n_min + k)) by lia.
  apply size_block.
Qed.

Lemma windows_too_long (tokens : list string) (n : nat) :
  (length tokens < n)%nat -> windows tokens n = [].
Proof.
  intros H. unfold windows.
  replace (length tokens + 1 - n)%nat with 0%nat by lia. reflexivity.
Qed.

Lemma join_single (t : string) : PyStr.join " " [t] = t.
Proof. reflexivity. Qed.

Lemma windows_one (tokens : list string) : windows tokens 1 = tokens.
Proof.
  unfold windows. replace (length tokens + 1 - 1)%nat with (length tokens) by lia.
  induction tokens as [|t tokens IH]; [reflexivity|].
  cbn [length seq map skipn firstn]. rewrite join_single. f_equal.
  rewrite <- seq_shift, map_map. exact IH.
Qed.

Lemma window_in_ngrams (tokens : list string) (n_min n_max : Z) (n i : nat) :
  (0 <= n_min)%Z ->
  (n_min <= Z.of_nat n <= n_max)%Z ->
  (i + n <= length tokens)%nat ->
  In (PyStr.join " " (firstn n (skipn i tokens)))
    (FalconNGrams.generate_ngrams tokens n_min n_max).
Proof.
  intros H0 Hn Hi. rewrite generate_ngrams_windows by exact H0.
  apply in_flat_map. exists n. split.
  - apply in_seq. lia.
  - unfold windows. apply in_map_iff. exists i. split; [reflexivity|].
    apply in_seq. lia.
Qed.

End NGramFacts.

(** X1.  Sizes above the number of tokens give nothing: the result is
    empty when even the smallest size is larger than the token list (an
    empty token list with the default sizes, for one), and a largest size
    above the token count can be lowered to the token count. *)
Theorem X1_ngrams_long_sizes (tokens : list string) (n_min n_max : Z) :
  (0 <= n_min)%Z ->
  ((Z.of_nat (length tokens) < n_min)%Z ->
   FalconNGrams.generate_ngrams tokens n_min n_max = [])
  /\ ((n_min <= Z.of_nat (length tokens) + 1)%Z ->
      (Z.of_nat (length tokens) <= n_max)%Z ->
      FalconNGrams.generate_ngrams tokens n_min n_max
      = FalconNGrams.generate_ngrams tokens n_min (Z.of_nat (length tokens))).
Proof.
  intros H0.
  assert (Hlong : forall a b : Z,
             (0 <= a)%Z -> (Z.of_nat (length tokens) < a)%Z ->
             FalconNGrams.generate_ngrams tokens a b = []).
  { intros a b Ha Hlt. rewrite generate_ngrams_windows by exact Ha.
    apply flat_map_nil. intros n Hn. apply in_seq in Hn.
    apply windows_too_long. lia. }
  split.
  - intros Hlt. now apply Hlong.
  - intros Hlo Hhi.
    set (c := Z.of_nat (length tokens)) in *.
    assert (E : FalconNGrams.generate_ngrams tokens n_min n_max
                = FalconNGrams.generate_ngrams tokens n_min c
                  ++ FalconNGrams.generate_ngrams tokens (c + 1) n_max).
    { unfold FalconNGrams.generate_ngrams.
      rewrite (range_split n_min (c + 1) (n_max + 1)) by lia.
      apply flat_map_app. }
    rewrite E, (Hlong (c + 1)%Z n_max) by lia. apply app_nil_r.
Qed.

Lemma X1_witness :
  FalconNGrams.generate_ngrams [] 1 6 = []
  /\ FalconNGrams.generate_ngrams ["born"; "in"] 1 6
     = FalconNGrams.generate_ngrams ["born"; "in"] 1 2.
Proof.
  split.
  - apply (proj1 (X1_ngrams_long_sizes [] 1 6 ltac:(lia))). simpl. lia.
  - apply (proj2 (X1_ngrams_long_sizes ["born"; "in"] 1 6 ltac:(lia))); simpl; lia.
Defined.

(** X2.  For sizes that are not negative, the generated strings are
    exactly the space-joined windows of [n] consecutive tokens that lie
    inside the token list, for the sizes [n] between [n_min] and [n_max]. *)
Theorem X2_ngrams_are_windows (tokens : list string) (n_min n_max : Z) (g : string) :
  (0 <= n_min)%Z ->
  (In g (FalconNGrams.generate_ngrams tokens n_min n_max)
   <-> exists n i : nat,
         (n_min <= Z.of_nat n <= n_max)%Z
         /\ (i + n <= length tokens)%nat
         /\ g = PyStr.join " " (firstn n (skipn i tokens))).
Proof.
  intros H0. split.
  - rewrite generate_ngrams_windows by exact H0. rewrite in_flat_map.
    intros (n & Hn & Hg). apply in_seq in Hn.
    unfold windows in Hg. apply in_map_iff in Hg as (i & <- & Hi).
    apply in_seq in Hi. exists n, i. repeat split; lia.
  - intros (n & i & Hn & Hi & ->). now apply window_in_ngrams.
Qed.

Lemma X2_witness :
  In "in paris" (FalconNGrams.generate_ngrams ["born"; "in"; "paris"] 1 6).
Proof.
  apply (proj2 (X2_ngrams_are_windows ["born"; "in"; "paris"] 1 6 "in paris"
                  ltac:(lia))).
  exists 2%nat, 1%nat. repeat split; simpl; lia.
Defined.

(** X3.  With both sizes equal to 1 the generator returns the tokens
    themselves, in order. *)
Theorem X3_unigrams (tokens : list string) :
  FalconNGrams.generate_ngrams tokens 1 1 = tokens.
Proof.
  rewrite generate_ngrams_windows by lia.
  change (Z.to_nat (1 + 1 - 1)) with 1%nat. change (Z.to_nat 1) with 1%nat.
  cbn [seq flat_map]. rewrite app_nil_r. apply windows_one.
Qed.

(** X4.  The n-grams come size by size in increasing size: the result for
    the sizes [n_min..n_max] is the result for [n_min..m] followed by the
    result for [m+1..n_max]; and a single size [n] contributes one n-gram
    per start position, [len + 1 - n] of them. *)
Theorem X4_ngrams_by_size (tokens : list string) (n_min m n_max : Z) (n : nat) :
  ((n_min <= m + 1)%Z -> (m <= n_max)%Z ->
   FalconNGrams.generate_ngrams tokens n_min n_max
   = FalconNGrams.generate_ngrams tokens n_min m
     ++ FalconNGrams.generate_ngrams tokens (m + 1) n_max)
  /\ length (FalconNGrams.generate_ngrams tokens (Z.of_nat n) (Z.of_nat n))
     = (length tokens + 1 - n)%nat.
Proof.
  split.
  - intros Hlo Hhi. unfold FalconNGrams.generate_ngrams.
    rewrite (range_split n_min (m + 1) (n_max + 1)) by lia.
    apply flat_map_app.
  - rewrite generate_ngrams_windows by lia.
    replace (Z.to_nat (Z.of_nat n + 1 - Z.of_nat n)) with 1%nat by lia.
    cbn [seq flat_map]. rewrite app_nil_r. unfold windows.
    rewrite length_map, length_seq. lia.
Qed.

Lemma X4_witness :
  FalconNGrams.generate_ngrams ["born"; "in"; "paris"] 1 3
  = FalconNGrams.generate_ngrams ["born"; "in"; "paris"] 1 1
    ++ FalconNGrams.generate_ngrams ["born"; "in"; "paris"] 2 3.
Proof.
  apply (proj1 (X4_ngrams_by_size ["born"; "in"; "paris"] 1 1 3 0)); lia.
Defined.

(** X5.  The query that [_infer_property_from_ngrams] sends for a
    non-empty token list is the join of the whole window, and that string
    is one of the generated n-grams whenever the number of tokens lies
    between the two sizes. *)
Theorem X5_infer_query_is_ngram (env : Env) (tokens : list string) (n_min n_max : Z) :
  tokens <> [] ->
  (0 <= n_min)%Z ->
  (n_min <= Z.of_nat (length tokens) <= n_max)%Z ->
  trace (FalconPipeline._infer_property_from_ngrams env tokens)
  = [EvSearch (PyStr.join " " tokens)]
  /\ In (PyStr.join " " tokens) (FalconNGrams.generate_ngrams tokens n_min n_max).
Proof.
  intros Hne H0 Hc. split.
  - unfold FalconPipeline._infer_property_from_ngrams.
    rewrite (truthy_cons tokens Hne). cbn [negb]. rewrite trace_bind.
    cbn [call trace value fst snd].
    now destruct (es_search env _) as [[|h hs]|].
  - pose proof (window_in_ngrams tokens n_min n_max (length tokens) 0 H0) as Hw.
    cbn [skipn] in Hw. rewrite firstn_all in Hw. apply Hw; lia.
Qed.

Lemma X5_witness :
  trace (FalconPipeline._infer_property_from_ngrams Demo.env ["buried"; "in"])
  = [EvSearch "buried in"]
  /\ In "buried in" (FalconNGrams.generate_ngrams ["buried"; "in"] 1 6).
Proof.
  apply (X5_infer_query_is_ngram Demo.env ["buried"; "in"] 1 6);
    [discriminate | lia | simpl; lia].
Defined.

(* ===================================================================== *)
(** ** The stopword list and what compression does with it *)
(* ===================================================================== *)

Section StopwordFacts.

Lemma add_stopwords_spec (lines : list string) (acc : gset string) (w : string) :
  w ∈ add_stopwords lines acc
  <-> w ∈ acc
      \/ exists line, In line lines
                      /\ w = PyStr.lower (PyStr.strip line)
                      /\ PyStr.truthy w = true
                      /\ PyStr.startswith_char "#" w = false.
Proof.
  revert acc. induction lines as [|line lines IH]; intros acc.
  - cbn [add_stopwords]. split; [now left|].
    intros [H|(line & [] & _)]. exact H.
  - cbn [add_stopwords].
    destruct (PyStr.truthy (PyStr.lower (PyStr.strip line))) eqn:Ht;
      [destruct (PyStr.startswith_char "#" (PyStr.lower (PyStr.strip line))) eqn:Hc|];
      cbn [andb negb]; rewrite IH; clear IH.
    + split.
      * intros [H|(l & Hl & E)]; [now left|]. right. exists l. split; [now right|exact E].
      * intros [H|(l & [->|Hl] & E & T & C)]; [now left| |].
        -- subst w. congruence.
        -- right. exists l. now repeat split.
    + split.
      * intros [H|(l & Hl & E)].
        -- apply elem_of_union in H as [H|H]; [|now left].
           apply elem_of_singleton in H. right. exists line.
           subst w. repeat split; [now left|exact Ht|exact Hc].
        -- right. exists l. split; [now right|exact E].
      * intros [H|(l & [->|Hl] & E & T & C)].
        -- left. apply elem_of_union. now right.
        -- left. apply elem_of_union. left. now apply elem_of_singleton.
        -- right. exists l. now repeat split.
    + split.
      * intros [H|(l & Hl & E)]; [now left|]. right. exists l. split; [now right|exact E].
      * intros [H|(l & [->|Hl] & E & T & C)]; [now left| |].
        -- subst w. congruence.
        -- right. exists l. now repeat split.
Qed.

Lemma loaded_stopword_lower (file : option (list string)) (w : string) :
  w ∈ load_stopwords file -> PyStr.lower w = w.
Proof.
  destruct file as [lines|]; cbn [load_stopwords]; [|intros H; now apply not_elem_of_empty in H].
  rewrite add_stopwords_spec. intros [H|(line & _ & -> & _)].
  - now apply not_elem_of_empty in H.
  - apply lower_idem.
Qed.

Lemma sub_keep_all (p : ascii -> bool) (s : string) :
  PyStr.all_chars p s = true -> PyStr.filter_chars p s = s.
Proof.
  induction s as [|c s IH]; cbn [PyStr.all_chars PyStr.filter_chars]; [reflexivity|].
  intros H. apply andb_true_iff in H as [Hc Hs]. now rewrite Hc, IH.
Qed.

End StopwordFacts.

(** X6.  The loaded stopword set holds exactly the lowercased, stripped
    lines of the file that are not empty and do not start with [#]; so
    every stopword is non-empty, equal to its lowercase form and not a
    comment.  A missing file gives the empty set. *)
Theorem X6_loaded_stopwords (file : option (list string)) (w : string) :
  (w ∈ load_stopwords file
   <-> exists lines line,
         file = Some lines /\ In line lines
         /\ w = PyStr.lower (PyStr.strip line)
         /\ w <> "" /\ PyStr.startswith_char "#" w = false)
  /\ (w ∈ load_stopwords file -> PyStr.lower w = w).
Proof.
  split; [|apply loaded_stopword_lower].
  destruct file as [lines|]; cbn [load_stopwords].
  - rewrite add_stopwords_spec. split.
    + intros [H|(line & Hl & E & T & C)]; [now apply not_elem_of_empty in H|].
      exists lines, line. repeat split; try assumption. now apply truthy_nonempty.
    + intros (lines' & line & [= <-] & Hl & E & T & C).
      right. exists line. repeat split; try assumption. now apply truthy_nonempty.
  - split; [intros H; now apply not_elem_of_empty in H|].
    intros (lines & line & E & _). discriminate E.
Qed.

Lemma X6_witness :
  "is" ∈ load_stopwords (Some ["# noise"; "the"; " Is "]) /\ PyStr.lower "is" = "is".
Proof.
  pose proof (X6_loaded_stopwords (Some ["# noise"; "the"; " Is "]) "is") as [Hm Hl].
  assert (H : "is" ∈ load_stopwords (Some ["# noise"; "the"; " Is "])).
  { apply (proj2 Hm). exists ["# noise"; "the"; " Is "], " Is ".
    repeat split; [simpl; auto | discriminate]. }
  split; [exact H|exact (Hl H)].
Defined.

(** X7.  When the stopword set was loaded from the file, no token that the
    endpoint's [preprocess_context] keeps is a stopword: a token is
    dropped in any casing as soon as its lowercase form is in the set. *)
Theorem X7_endpoint_tokens_not_stopwords (env : Env) (file : option (list string))
  (ctx : list string) :
  stopwords env = load_stopwords file ->
  Forall (fun w => w ∉ stopwords env) (Main.preprocess_context env ctx).
Proof.
  intros Hs. eapply Forall_impl; [apply preprocess_context_kept|].
  intros w [_ Hn] Hin. apply Hn.
  rewrite Hs in Hin |- *. now rewrite (loaded_stopword_lower file w Hin).
Qed.

Lemma X7_witness :
  Forall (fun w => w ∉ stopwords Demo.env)
    (Main.preprocess_context Demo.env ["The"; "Hilton"; "IS"; "expensive"]).
Proof.
  apply (X7_endpoint_tokens_not_stopwords Demo.env
           (Some ["# noise"; "the"; " Is "; ""; "I"; "love"; "of"])).
  reflexivity.
Defined.

(** X8.  Without a stopword file the filter is off: the endpoint's
    [preprocess_context] returns its input unchanged, and
    [clean_context_window] still lowercases and cleans every token and
    drops the tokens that become empty. *)
Theorem X8_missing_stopword_file (env : Env) (ctx : list string) :
  stopwords env = load_stopwords None ->
  Main.preprocess_context env ctx = ctx
  /\ FalconPreprocessor.clean_context_window env ctx
     = List.filter PyStr.truthy
         (map (fun token => FalconPreprocessor.clean_regex_sub env (PyStr.lower token)) ctx).
Proof.
  intros Hs. cbn [load_stopwords] in Hs. split.
  - induction ctx as [|w ctx IH]; [reflexivity|].
    cbn [Main.preprocess_context]. rewrite Hs.
    rewrite bool_decide_eq_false_2 by apply not_elem_of_empty.
    cbn [negb]. now rewrite IH.
  - induction ctx as [|w ctx IH]; [reflexivity|].
    cbn [FalconPreprocessor.clean_context_window map List.filter]. rewrite Hs.
    rewrite bool_decide_eq_false_2 by apply not_elem_of_empty.
    cbn [negb]. rewrite andb_true_r. now rewrite IH.
Qed.

Lemma X8_witness :
  Main.preprocess_context DemoNoStopwords.env ["The"; "Hilton"; "is"] = ["The"; "Hilton"; "is"]
  /\ FalconPreprocessor.clean_context_window DemoNoStopwords.env ["The"; "Hilton"; "is"]
     = List.filter PyStr.truthy
         (map (fun token =>
                 FalconPreprocessor.clean_regex_sub DemoNoStopwords.env (PyStr.lower token))
            ["The"; "Hilton"; "is"]).
Proof.
  apply (X8_missing_stopword_file DemoNoStopwords.env ["The"; "Hilton"; "is"]).
  reflexivity.
Defined.

Section CompressionShape.
Context (env : Env).

Lemma clean_context_window_app (a b : list string) :
  FalconPreprocessor.clean_context_window env (a ++ b)
  = FalconPreprocessor.clean_context_window env a
    ++ FalconPreprocessor.clean_context_window env b.
Proof.
  induction a as [|t a IH]; [reflexivity|].
  cbn [app FalconPreprocessor.clean_context_window].
  destruct (_ && _); rewrite IH; reflexivity.
Qed.

Lemma preprocess_context_app (a b : list string) :
  Main.preprocess_context env (a ++ b)
  = Main.preprocess_context env a ++ Main.preprocess_context env b.
Proof.
  induction a as [|t a IH]; [reflexivity|].
  cbn [app Main.preprocess_context].
  destruct (negb _); rewrite IH; reflexivity.
Qed.

Lemma clean_context_window_length (ctx : list string) :
  (length (FalconPreprocessor.clean_context_window env ctx) <= length ctx)%nat.
Proof.
  induction ctx as [|t ctx IH]; [reflexivity|].
  cbn [FalconPreprocessor.clean_context_window].
  destruct (_ && _); cbn [length]; lia.
Qed.

Lemma preprocess_context_sublist (ctx : list string) :
  sublist (Main.preprocess_context env ctx) ctx.
Proof.
  induction ctx as [|t ctx IH]; [constructor|].
  cbn [Main.preprocess_context].
  destruct (negb _); [now apply sublist_skip|now apply sublist_cons].
Qed.

End CompressionShape.

(** X9.  Compression works token by token: compressing a concatenation
    gives the concatenation of the compressed parts, for both compressors.
    [clean_context_window] never returns more tokens than it received, and
    what [preprocess_context] returns is its input with some tokens left
    out, in the same order. *)
Theorem X9_compression_tokenwise (env : Env) (a b : list string) :
  FalconPreprocessor.clean_context_window env (a ++ b)
  = FalconPreprocessor.clean_context_window env a
    ++ FalconPreprocessor.clean_context_window env b
  /\ Main.preprocess_context env (a ++ b)
     = Main.preprocess_context env a ++ Main.preprocess_context env b
  /\ (length (FalconPreprocessor.clean_context_window env a) <= length a)%nat
  /\ sublist (Main.preprocess_context env a) a.
Proof.
  split; [apply clean_context_window_app|].
  split; [apply preprocess_context_app|].
  split; [apply clean_context_window_length|apply preprocess_context_sublist].
Qed.

(* ===================================================================== *)
(** ** The two description resolvers *)
(* ===================================================================== *)

Section ResolverFacts.
Context (env : Env).

Lemma description_of_agree (src : Source) :
  default "" (Main.description_of src) = FalconPipeline.description_of src.
Proof.
  unfold Main.description_of, FalconPipeline.description_of.
  destruct (description src) as [| |[|c d]], (label src) as [| |[|c' l]]; reflexivity.
Qed.

Lemma description_of_none (src : Source) :
  Main.description_of src = None
  <-> (description src = Absent \/ description src = Null \/ description src = Text "")
      /\ label src = Null.
Proof.
  unfold Main.description_of.
  destruct (description src) as [| |[|c d]], (label src) as [| |[|c' l]]; cbn;
    (split;
     [ intros H; first [discriminate H | split; [auto|reflexivity]]
     | intros [[H|[H|H]] H'];
       first [reflexivity | discriminate H | discriminate H'] ]).
Qed.

Lemma collect_agree (docs : list MgetDoc) (m : gmap string (option string)) :
  default "" <$> Main.collect_descriptions docs m
  = FalconPipeline.collect_descriptions docs (default "" <$> m).
Proof.
  revert m. induction docs as [|[i src|i] docs IH]; intros m; [reflexivity| |].
  - cbn [Main.collect_descriptions FalconPipeline.collect_descriptions].
    now rewrite IH, fmap_insert, description_of_agree.
  - cbn [Main.collect_descriptions FalconPipeline.collect_descriptions].
    now rewrite IH, fmap_insert.
Qed.

Lemma all_empty_agree (qids : list string) :
  default "" <$> Main.all_empty qids = FalconPipeline.all_empty qids.
Proof.
  unfold Main.all_empty, FalconPipeline.all_empty.
  induction qids as [|q qids IH]; cbn [map list_to_map foldr].
  - apply fmap_empty.
  - cbn. rewrite fmap_insert. cbn. f_equal. exact IH.
Qed.

Lemma collect_dom (docs : list MgetDoc) (m : gmap string string) :
  dom (FalconPipeline.collect_descriptions docs m)
  = list_to_set (map doc_id docs) ∪ dom m.
Proof.
  revert m. induction docs as [|[i src|i] docs IH]; intros m;
    cbn [FalconPipeline.collect_descriptions map list_to_set doc_id].
  - now rewrite (left_id_L ∅ (∪)).
  - rewrite IH, dom_insert_L.
    now rewrite (assoc_L (∪)), (comm_L (∪) (list_to_set (map doc_id docs)) {[i]}).
  - rewrite IH, dom_insert_L.
    now rewrite (assoc_L (∪)), (comm_L (∪) (list_to_set (map doc_id docs)) {[i]}).
Qed.

Lemma all_empty_dom (qids : list string) :
  dom (FalconPipeline.all_empty qids) = list_to_set qids.
Proof.
  unfold FalconPipeline.all_empty. rewrite dom_list_to_map_L.
  f_equal. rewrite <- list_fmap_compose.
  induction qids as [|q qids IH]; [reflexivity|]. cbn. now rewrite IH.
Qed.

Lemma collect_untouched (docs : list MgetDoc) (m : gmap string string) (q : string) :
  ~ In q (map doc_id docs) ->
  FalconPipeline.collect_descriptions docs m !! q = m !! q.
Proof.
  revert m. induction docs as [|d docs IH]; intros m Hq; [reflexivity|].
  cbn [map] in Hq.
  assert (Hd : doc_id d <> q) by (intros E; apply Hq; now left).
  assert (Hr : ~ In q (map doc_id docs)) by (intros E; apply Hq; now right).
  destruct d as [i src|i]; cbn [doc_id] in Hd;
    cbn [FalconPipeline.collect_descriptions];
    rewrite (IH _ Hr); now apply lookup_insert_ne.
Qed.

Lemma collect_lookup (docs : list MgetDoc) (m : gmap string string) (d : MgetDoc) :
  NoDup (map doc_id docs) ->
  In d docs ->
  FalconPipeline.collect_descriptions docs m !! doc_id d
  = Some (match d with
          | DocFound _ src => FalconPipeline.description_of src
          | DocMissing _ => ""
          end).
Proof.
  revert m. induction docs as [|d0 docs IH]; intros m Hnd Hin; [destruct Hin|].
  cbn [map] in Hnd. apply NoDup_cons in Hnd as [Hfresh Hnd].
  destruct Hin as [->|Hin].
  - assert (Hq : ~ In (doc_id d) (map doc_id docs))
      by (intros E; apply Hfresh; now apply list_elem_of_In).
    destruct d as [i src|i]; cbn [doc_id] in *;
      cbn [FalconPipeline.collect_descriptions];
      rewrite (collect_untouched _ _ _ Hq); apply lookup_insert_eq.
  - destruct d0 as [i0 src0|i0]; cbn [FalconPipeline.collect_descriptions];
      now apply IH.
Qed.

Lemma description_of_cases (src : Source) :
  (forall d, description src = Text d -> d <> "" ->
             FalconPipeline.description_of src = d)
  /\ (forall l, (description src = Absent \/ description src = Null
                 \/ description src = Text "") ->
                label src = Text l -> FalconPipeline.description_of src = l)
  /\ ((description src = Absent \/ description src = Null
       \/ description src = Text "") ->
      (label src = Absent \/ label src = Null) ->
      FalconPipeline.description_of src = "").
Proof.
  unfold FalconPipeline.description_of. repeat split.
  - intros d -> Hd. destruct d; [congruence|reflexivity].
  - intros l [->|[->| ->]] ->; now destruct l.
  - intros [->|[->| ->]] [->| ->]; reflexivity.
Qed.

End ResolverFacts.

(** X10.  The resolver of the endpoint and the resolver of the pipeline
    class make the same call, and the pipeline's mapping is the endpoint's
    mapping with a stored [None] read as the empty string.  The endpoint
    stores [None] for a found document exactly when its label is [null]
    and its description is absent, [null] or empty; the pipeline stores
    the empty string there. *)
Theorem X10_resolvers_agree (env : Env) (qids : list string) :
  trace (Main.fetch_candidate_descriptions env qids)
  = trace (FalconPipeline._fetch_descriptions env qids)
  /\ default "" <$> value (Main.fetch_candidate_descriptions env qids)
     = value (FalconPipeline._fetch_descriptions env qids)
  /\ (forall src : Source,
        (Main.description_of src = None
         <-> (description src = Absent \/ description src = Null
              \/ description src = Text "")
             /\ label src = Null)
        /\ default "" (Main.description_of src) = FalconPipeline.description_of src).
Proof.
  split; [|split].
  - now rewrite fetch_trace_main, fetch_trace_run.
  - rewrite run_fetch_value, main_fetch_value.
    destruct (es_mget env qids) as [docs|].
    + rewrite collect_agree. now rewrite fmap_empty.
    + apply all_empty_agree.
  - intros src. split; [apply description_of_none|apply description_of_agree].
Qed.

(** X11.  The keys of the returned mapping: after a failed lookup they are
    exactly the requested identifiers; after a lookup that answered they
    are exactly the identifiers of the documents in the answer. *)
Theorem X11_resolver_keys (env : Env) (qids : list string) :
  match es_mget env qids with
  | None =>
      dom (value (FalconPipeline._fetch_descriptions env qids)) = list_to_set qids
  | Some docs =>
      dom (value (FalconPipeline._fetch_descriptions env qids))
      = list_to_set (map doc_id docs)
  end.
Proof.
  rewrite run_fetch_value.
  destruct (es_mget env qids) as [docs|].
  - rewrite collect_dom, dom_empty_L. apply (right_id_L ∅ (∪)).
  - apply all_empty_dom.
Qed.

(** X12.  When the answer lists every identifier once, a found document is
    resolved to its description, to its label when the description is
    absent or empty, and to the empty string when both are; a document
    that was not found is resolved to the empty string. *)
Theorem X12_resolver_values (env : Env) (qids : list string) (docs : list MgetDoc)
  (d : MgetDoc) :
  es_mget env qids = Some docs ->
  NoDup (map doc_id docs) ->
  In d docs ->
  exists v : string,
    value (FalconPipeline._fetch_descriptions env qids) !! doc_id d = Some v
    /\ match d with
       | DocMissing _ => v = ""
       | DocFound _ src =>
           (forall t, description src = Text t -> t <> "" -> v = t)
           /\ (forall l, (description src = Absent \/ description src = Null
                          \/ description src = Text "") ->
                         label src = Text l -> v = l)
           /\ ((description src = Absent \/ description src = Null
                \/ description src = Text "") ->
               (label src = Absent \/ label src = Null) -> v = "")
       end.
Proof.
  intros Hm Hnd Hin. rewrite run_fetch_value, Hm.
  rewrite (collect_lookup docs ∅ d Hnd Hin).
  eexists. split; [reflexivity|].
  destruct d as [i src|i]; [apply description_of_cases|reflexivity].
Qed.

Lemma X12_witness :
  exists v : string,
    value (FalconPipeline._fetch_descriptions Demo.env ["Q47746"; "Q5"]) !! "Q47746" = Some v
    /\ (forall t, Text "" = Text t -> t <> "" -> v = t)
    /\ (forall l, (Text "" = Absent \/ Text "" = Null \/ Text "" = Text "") ->
                  Text "Paris Hilton" = Text l -> v = l)
    /\ ((Text "" = Absent \/ Text "" = Null \/ Text "" = Text "") ->
        (Text "Paris Hilton" = Absent \/ Text "Paris Hilton" = Null) -> v = "").
Proof.
  apply (X12_resolver_values Demo.env ["Q47746"; "Q5"]
           [DocFound "Q47746" {| description := Text ""; label := Text "Paris Hilton" |};
            DocMissing "Q5"]
           (DocFound "Q47746" {| description := Text ""; label := Text "Paris Hilton" |})).
  - reflexivity.
  - apply NoDup_cons. split; [|apply NoDup_cons; split; [|apply NoDup_nil_2]].
    + intros H. apply list_elem_of_In in H. simpl in H. destruct H as [H|[]]. discriminate H.
    + intros H. apply list_elem_of_In in H. destruct H.
  - simpl. auto.
Defined.

(* ===================================================================== *)
(** ** Property inference *)
(* ===================================================================== *)

Section InferenceFacts.
Context (env : Env).

Lemma infer_trace_short (tokens : list string) :
  (length (trace (FalconPipeline._infer_property_from_ngrams env tokens)) <= 1)%nat.
Proof.
  unfold FalconPipeline._infer_property_from_ngrams.
  destruct (PyList.truthy tokens); cbn [negb]; [|cbn; lia].
  rewrite trace_bind. cbn [call trace value fst snd].
  destruct (es_search env _) as [[|h hs]|]; cbn; lia.
Qed.

Lemma extract_trace_short (tokens : list string) :
  (length (trace (Main.extract_inferred_property env tokens)) <= 1)%nat.
Proof.
  unfold Main.extract_inferred_property.
  destruct (PyStr.truthy _); cbn [negb]; [|cbn; lia].
  rewrite trace_bind. cbn [call trace value fst snd].
  destruct (es_search env _) as [[|h hs]|]; cbn; lia.
Qed.

Lemma infer_no_hit (tokens : list string) :
  es_search env (PyStr.join " " tokens) = None
  \/ es_search env (PyStr.join " " tokens) = Some [] ->
  value (FalconPipeline._infer_property_from_ngrams env tokens) = None.
Proof.
  intros H. unfold FalconPipeline._infer_property_from_ngrams.
  destruct (PyList.truthy tokens); cbn [negb]; [|reflexivity].
  rewrite value_bind. cbn [call value fst]. now destruct H as [-> | ->].
Qed.

Lemma extract_no_hit (tokens : list string) :
  es_search env (PyStr.join " " tokens) = None
  \/ es_search env (PyStr.join " " tokens) = Some [] ->
  value (Main.extract_inferred_property env tokens) = None.
Proof.
  intros H. unfold Main.extract_inferred_property.
  destruct (PyStr.truthy _); cbn [negb]; [|reflexivity].
  rewrite value_bind. cbn [call value fst]. now destruct H as [-> | ->].
Qed.

Lemma inferencers_agree (tokens : list string) :
  PyStr.strip (PyStr.join " " tokens) <> "" ->
  Main.extract_inferred_property env tokens
  = FalconPipeline._infer_property_from_ngrams env tokens.
Proof.
  intros H.
  assert (Ht : PyList.truthy tokens = true).
  { destruct tokens; [|reflexivity]. exfalso. now apply H. }
  unfold Main.extract_inferred_property, FalconPipeline._infer_property_from_ngrams.
  rewrite Ht. apply truthy_nonempty in H. rewrite H. reflexivity.
Qed.

End InferenceFacts.

(** X13.  Property inference makes at most one call, a property search,
    in both implementations; a search that fails is treated like a search
    without hits, the inferred property is [null]; and the endpoint's
    [extract_inferred_property] and the pipeline's
    [_infer_property_from_ngrams] are the same computation on every token
    list whose joined window is not blank. *)
Theorem X13_inference_degrades (env : Env) (tokens : list string) :
  ((length (trace (FalconPipeline._infer_property_from_ngrams env tokens)) <= 1)%nat
   /\ forallb is_search (trace (FalconPipeline._infer_property_from_ngrams env tokens)) = true
   /\ (length (trace (Main.extract_inferred_property env tokens)) <= 1)%nat
   /\ forallb is_search (trace (Main.extract_inferred_property env tokens)) = true)
  /\ (es_search env (PyStr.join " " tokens) = None
      \/ es_search env (PyStr.join " " tokens) = Some [] ->
      value (FalconPipeline._infer_property_from_ngrams env tokens) = None
      /\ value (Main.extract_inferred_property env tokens) = None)
  /\ (PyStr.strip (PyStr.join " " tokens) <> "" ->
      Main.extract_inferred_property env tokens
      = FalconPipeline._infer_property_from_ngrams env tokens).
Proof.
  split; [|split].
  - split; [apply infer_trace_short|]. split; [apply infer_trace_search|].
    split; [apply extract_trace_short|apply extract_trace_search].
  - intros H. split; [now apply infer_no_hit|now apply extract_no_hit].
  - apply inferencers_agree.
Qed.

Lemma X13_witness :
  (value (FalconPipeline._infer_property_from_ngrams Demo.env_down ["buried"; "in"]) = None
   /\ value (Main.extract_inferred_property Demo.env_down ["buried"; "in"]) = None)
  /\ Main.extract_inferred_property Demo.env ["buried"; "in"]
     = FalconPipeline._infer_property_from_ngrams Demo.env ["buried"; "in"].
Proof.
  split.
  - apply (proj1 (proj2 (X13_inference_degrades Demo.env_down ["buried"; "in"]))).
    left. reflexivity.
  - apply (proj2 (proj2 (X13_inference_degrades Demo.env ["buried"; "in"]))).
    vm_compute. discriminate.
Defined.

(* ===================================================================== *)
(** ** The orchestrators under failure and at the edges *)
(* ===================================================================== *)

Section EdgeFacts.
Context (env : Env).

Lemma text_for_all_empty (surface : string) (qids : list string) (q : string) :
  In q qids -> text_for surface (FalconPipeline.all_empty qids) q = surface.
Proof.
  intros H. unfold text_for. now rewrite (all_empty_lookup qids q H).
Qed.

Lemma map_const_in {A B : Type} (f : A -> B) (c : B) (l : list A) :
  (forall x, In x l -> f x = c) -> map f l = repeat c (length l).
Proof.
  induction l as [|x l IH]; intros H; [reflexivity|].
  cbn [map length repeat]. rewrite (H x) by now left.
  f_equal. apply IH. intros y Hy. apply H. now right.
Qed.

Lemma filter_all {A : Type} (p : A -> bool) (l : list A) :
  forallb p l = true -> List.filter p l = l.
Proof.
  induction l as [|x l IH]; [reflexivity|].
  cbn [forallb List.filter]. intros H. apply andb_true_iff in H as [Hx Hl].
  now rewrite Hx, IH.
Qed.

Lemma search_not_mget (t : list event) :
  forallb is_search t = true -> List.filter is_mget t = [].
Proof.
  induction t as [|e t IH]; [reflexivity|].
  cbn [forallb List.filter]. intros H. apply andb_true_iff in H as [He Ht].
  destruct e; try discriminate He. cbn [is_mget]. now apply IH.
Qed.

Lemma filter_search_encodes (f : string -> string) (l : list string) :
  List.filter is_search (map (fun q => EvEncode (f q)) l) = [].
Proof. induction l as [|x l IH]; [reflexivity|]. exact IH. Qed.

Lemma filter_mget_encodes (f : string -> string) (l : list string) :
  List.filter is_mget (map (fun q => EvEncode (f q)) l) = [].
Proof. induction l as [|x l IH]; [reflexivity|]. exact IH. Qed.

(** The calls of a scored request, by kind. *)
Lemma scored_trace_counts (pre : list event) (qids : list string) (input : string)
  (f : string -> string) :
  forallb is_search pre = true ->
  let t := pre ++ EvMget qids :: EvEncode input :: map (fun q => EvEncode (f q)) qids in
  List.filter is_search t = pre
  /\ List.filter is_mget t = [EvMget qids]
  /\ List.filter is_encode t = EvEncode input :: map (fun q => EvEncode (f q)) qids.
Proof.
  intros Hp t. subst t. rewrite !List.filter_app.
  cbn [List.filter is_search is_mget is_encode].
  rewrite (filter_all _ _ Hp), (search_not_mget _ Hp), (search_not_encode _ Hp).
  rewrite filter_search_encodes, filter_mget_encodes, filter_encode_map.
  rewrite app_nil_r. repeat split; reflexivity.
Qed.

End EdgeFacts.

(** X14.  When the entity store is down, the request is still answered
    with every candidate ranked, and every candidate is embedded through
    the surface form: after the query text, the embedder is called with the
    surface form once per candidate.  This holds for the endpoint and for
    [FalconPipeline.run]. *)
Theorem X14_store_down_fallback (env : Env) :
  (forall payload : Payload,
      Main.candidates_to_process env payload <> [] ->
      es_mget env (Main.candidates_to_process env payload) = None ->
      (exists inferred rs,
          value (Main.disambiguate env payload) = Result inferred rs
          /\ length rs = length (Main.candidates_to_process env payload))
      /\ List.filter is_encode (trace (Main.disambiguate env payload))
         = EvEncode (main_input_text env payload)
           :: repeat (EvEncode (main_surface payload))
                (length (Main.candidates_to_process env payload)))
  /\ (forall (surface : string) (raw_context candidate_ids : list string),
        candidate_ids <> [] ->
        es_mget env candidate_ids = None ->
        (exists inferred rs,
            value (FalconPipeline.run env surface raw_context candidate_ids)
            = Result inferred rs
            /\ length rs = length candidate_ids)
        /\ List.filter is_encode
             (trace (FalconPipeline.run env surface raw_context candidate_ids))
           = EvEncode (run_input_text env surface raw_context)
             :: repeat (EvEncode surface) (length candidate_ids)).
Proof.
  split.
  - intros payload Hne Hdown.
    assert (Ht : Main.payload_truthy payload = true).
    { destruct (Main.payload_truthy payload) eqn:Ht; [reflexivity|].
      exfalso. apply Hne. now apply empty_payload_no_candidates. }
    rewrite (disambiguate_scored env payload Ht Hne). cbn [value trace fst snd].
    split.
    + eexists _, _. split; [reflexivity|].
      apply sorted_ids. apply main_score_ids.
    + destruct (scored_trace_counts
                  (trace (Main.extract_inferred_property env (main_clean env payload)))
                  (Main.candidates_to_process env payload)
                  (main_input_text env payload)
                  (text_for (main_surface payload) (main_descriptions env payload))
                  (extract_trace_search env _)) as (_ & _ & ->).
      f_equal. rewrite <- (length_map (fun _ : string => EvEncode (main_surface payload))).
      rewrite (map_const_in _ (EvEncode (main_surface payload))); [now rewrite length_map|].
      intros q Hq. f_equal. unfold main_descriptions, main_fetched.
      rewrite main_fetch_value, Hdown, all_empty_agree. now apply text_for_all_empty.
  - intros surface raw_context candidate_ids Hne Hdown.
    rewrite (run_scored env surface raw_context candidate_ids Hne).
    cbn [value trace fst snd]. split.
    + eexists _, _. split; [reflexivity|].
      apply sorted_ids. apply run_score_ids.
    + destruct (scored_trace_counts
                  (trace (FalconPipeline._infer_property_from_ngrams env
                            (run_clean env raw_context)))
                  candidate_ids (run_input_text env surface raw_context)
                  (text_for surface (run_descriptions env candidate_ids))
                  (infer_trace_search env _)) as (_ & _ & ->).
      f_equal. rewrite <- (length_map (fun _ : string => EvEncode surface)).
      rewrite (map_const_in _ (EvEncode surface)); [now rewrite length_map|].
      intros q Hq. f_equal. unfold run_descriptions.
      rewrite run_fetch_value, Hdown. now apply text_for_all_empty.
Qed.

Lemma X14_witness :
  List.filter is_encode
    (trace (FalconPipeline.run Demo.env_down "Paris" ["visiting"] ["Q90"; "Q47746"]))
  = [EvEncode "Paris visiting"; EvEncode "Paris"; EvEncode "Paris"].
Proof.
  apply (proj2 (proj2 (X14_store_down_fallback Demo.env_down)
                  "Paris" ["visiting"] ["Q90"; "Q47746"]
                  ltac:(discriminate) eq_refl)).
Defined.

(** X15.  The call budget of one request to the endpoint.  When the
    configured maximum is not negative and the requested limit is absent
    or not negative, a request makes at most one property search, at most
    one description lookup and at most [1 + max_candidates] embedder
    calls. *)
Theorem X15_call_budget (env : Env) (payload : Payload) :
  (0 <= max_candidates env)%Z ->
  (forall l : Z, limit payload = Some l -> (0 <= l)%Z) ->
  (length (List.filter is_search (trace (Main.disambiguate env payload))) <= 1)%nat
  /\ (length (List.filter is_mget (trace (Main.disambiguate env payload))) <= 1)%nat
  /\ (Z.of_nat (length (List.filter is_encode (trace (Main.disambiguate env payload))))
      <= 1 + max_candidates env)%Z.
Proof.
  intros Hm Hl.
  destruct (Main.payload_truthy payload) eqn:Ht;
    [|rewrite (disambiguate_empty_payload env payload Ht); cbn; lia].
  destruct (Main.candidates_to_process env payload) as [|q qs] eqn:Ec;
    [rewrite (disambiguate_no_candidates env payload Ht Ec); cbn; lia|].
  assert (Hne : Main.candidates_to_process env payload <> [])
    by (rewrite Ec; discriminate).
  assert (Hlen : (Z.of_nat (length (Main.candidates_to_process env payload))
                  <= max_candidates env)%Z).
  { unfold Main.candidates_to_process.
    assert (Hp : (0 <= Main.process_limit env payload <= max_candidates env)%Z).
    { unfold Main.process_limit. destruct (limit payload) as [l|] eqn:El; simpl.
      - specialize (Hl l eq_refl). lia.
      - lia. }
    pose proof (slice_to_length_le (default [] (candidates payload))
                  (Main.process_limit env payload) ltac:(lia)). lia. }
  rewrite (disambiguate_scored env payload Ht Hne). cbn [trace snd].
  destruct (scored_trace_counts
              (trace (Main.extract_inferred_property env (main_clean env payload)))
              (Main.candidates_to_process env payload)
              (main_input_text env payload)
              (text_for (main_surface payload) (main_descriptions env payload))
              (extract_trace_search env _)) as (-> & -> & ->).
  split; [apply extract_trace_short|]. split; [cbn; lia|].
  cbn [length]. rewrite length_map. lia.
Qed.

Lemma X15_witness :
  (length (List.filter is_search
             (trace (Main.disambiguate Demo.env
                       (Demo.with_limit 2 ["Q90"; "Q47746"; "Q1"])))) <= 1)%nat
  /\ (length (List.filter is_mget
                (trace (Main.disambiguate Demo.env
                          (Demo.with_limit 2 ["Q90"; "Q47746"; "Q1"])))) <= 1)%nat
  /\ (Z.of_nat (length (List.filter is_encode
                          (trace (Main.disambiguate Demo.env
                                    (Demo.with_limit 2 ["Q90"; "Q47746"; "Q1"])))))
      <= 1 + max_candidates Demo.env)%Z.
Proof.
  apply (X15_call_budget Demo.env (Demo.with_limit 2 ["Q90"; "Q47746"; "Q1"])).
  - vm_compute. discriminate.
  - intros l [= <-]. lia.
Defined.

(** X16.  An empty compressed context (an empty context window, or one
    made of stopwords only) still gives a full ranking: no property search
    is made, the inferred property is [null], every candidate is ranked,
    and the query text is the surface form followed by a space at the
    endpoint, the stripped surface form in [FalconPipeline.run]. *)
Theorem X16_empty_context (env : Env) :
  (forall payload : Payload,
      Main.candidates_to_process env payload <> [] ->
      main_clean env payload = [] ->
      exists rs,
        Main.disambiguate env payload
        = (Result None rs,
           EvMget (Main.candidates_to_process env payload)
           :: EvEncode (main_surface payload +:+ " ")
           :: map (fun q => EvEncode (text_for (main_surface payload)
                                        (main_descriptions env payload) q))
                (Main.candidates_to_process env payload))
        /\ length rs = length (Main.candidates_to_process env payload))
  /\ (forall (surface : string) (raw_context candidate_ids : list string),
        candidate_ids <> [] ->
        FalconPreprocessor.clean_context_window env raw_context = [] ->
        exists rs,
          FalconPipeline.run env surface raw_context candidate_ids
          = (Result None rs,
             EvMget candidate_ids
             :: EvEncode (PyStr.strip (surface +:+ " "))
             :: map (fun q => EvEncode (text_for surface
                                          (run_descriptions env candidate_ids) q))
                  candidate_ids)
          /\ length rs = length candidate_ids).
Proof.
  split.
  - intros payload Hne Hc.
    assert (Ht : Main.payload_truthy payload = true).
    { destruct (Main.payload_truthy payload) eqn:Ht; [reflexivity|].
      exfalso. apply Hne. now apply empty_payload_no_candidates. }
    rewrite (disambiguate_scored env payload Ht Hne).
    unfold main_input_text. rewrite Hc. eexists. split; [reflexivity|].
    apply sorted_ids. apply main_score_ids.
  - intros surface raw_context candidate_ids Hne Hc.
    rewrite (run_scored env surface raw_context candidate_ids Hne).
    unfold run_input_text, run_clean. rewrite Hc. eexists. split; [reflexivity|].
    apply sorted_ids. apply run_score_ids.
Qed.

Lemma X16_witness :
  exists rs,
    FalconPipeline.run Demo.env "Paris" ["The"; "of"; "!"] ["Q90"; "Q1"]
    = (Result None rs,
       EvMget ["Q90"; "Q1"]
       :: EvEncode (PyStr.strip ("Paris" +:+ " "))
       :: map (fun q => EvEncode (text_for "Paris"
                                    (run_descriptions Demo.env ["Q90"; "Q1"]) q))
            ["Q90"; "Q1"])
    /\ length rs = length ["Q90"; "Q1"].
Proof.
  apply (proj2 (X16_empty_context Demo.env) "Paris" ["The"; "of"; "!"] ["Q90"; "Q1"]).
  - discriminate.
  - vm_compute. reflexivity.
Defined.

(* ===================================================================== *)
(** ** The top-ranked candidate *)
(* ===================================================================== *)

Section TopFacts.
Context {A : Type} (key : A -> Q).

Lemma filter_nil_all (p : A -> bool) (l : list A) :
  List.filter p l = [] -> Forall (fun x => p x = false) l.
Proof.
  induction l as [|x l IH]; [constructor|].
  cbn [List.filter]. destruct (p x) eqn:Hx; [discriminate|].
  intros H. constructor; [exact Hx|now apply IH].
Qed.

(** The head of the sorted list is, in the unsorted list, the first entry
    that has the largest key. *)
Lemma head_is_first_max (l rest : list A) (r : A) :
  PySort.sort_desc key l = r :: rest ->
  exists a c,
    l = a ++ r :: c
    /\ Forall (fun x => (key x < key r)%Q) a
    /\ Forall (fun x => (key x <= key r)%Q) c.
Proof.
  intros E.
  assert (Hmax : Forall (fun x => (key x <= key r)%Q) l).
  { eapply Permutation_Forall; [apply sort_desc_perm|].
    rewrite E. constructor; [apply Qle_refl|].
    pose proof (sort_desc_sorted key l) as Hs. rewrite E in Hs.
    apply StronglySorted_inv in Hs as [_ Hs]. exact Hs. }
  pose proof (sort_desc_stable key (key r) l) as Hst. rewrite E in Hst.
  unfold with_key in Hst. cbn [List.filter] in Hst.
  rewrite (proj2 (Qeq_bool_iff (key r) (key r)) (Qeq_refl _)) in Hst.
  symmetry in Hst.
  destruct (filter_split _ l [] _ r Hst) as (a & c & -> & Ha & _).
  exists a, c. split; [reflexivity|].
  apply Forall_app in Hmax as [Hma Hmc]. apply Forall_cons in Hmc as [_ Hmc].
  split; [|exact Hmc].
  apply filter_nil_all in Ha.
  rewrite Forall_forall in *. intros x Hx.
  specialize (Ha x Hx). specialize (Hma x Hx). cbn beta in Ha.
  apply Qle_lteq in Hma as [Hlt|Heq]; [exact Hlt|].
  apply Qeq_bool_iff in Heq. congruence.
Qed.

End TopFacts.

(** X17.  The first entry of [ranked_candidates] belongs to the candidate
    that, in the order of the (truncated) candidate list, is the first one
    with the highest score: every candidate before it scores strictly
    lower, every candidate after it scores at most as high. *)
Theorem X17_top_candidate (env : Env) :
  (forall (payload : Payload) (r : Ranked) (rest : list Ranked),
      ranked_of (value (Main.disambiguate env payload)) = r :: rest ->
      exists a c : list Ranked,
        main_unsorted env payload = a ++ r :: c
        /\ Main.candidates_to_process env payload = map id a ++ id r :: map id c
        /\ Forall (fun x => (falcon_score x < falcon_score r)%Q) a
        /\ Forall (fun x => (falcon_score x <= falcon_score r)%Q) c)
  /\ (forall (surface : string) (raw_context candidate_ids : list string)
        (r : Ranked) (rest : list Ranked),
        ranked_of (value (FalconPipeline.run env surface raw_context candidate_ids))
        = r :: rest ->
        exists a c : list Ranked,
          run_unsorted env surface raw_context candidate_ids = a ++ r :: c
          /\ candidate_ids = map id a ++ id r :: map id c
          /\ Forall (fun x => (falcon_score x < falcon_score r)%Q) a
          /\ Forall (fun x => (falcon_score x <= falcon_score r)%Q) c).
Proof.
  split.
  - intros payload r rest E.
    destruct (Main.payload_truthy payload) eqn:Ht;
      [|rewrite (disambiguate_empty_payload env payload Ht) in E; discriminate E].
    destruct (Main.candidates_to_process env payload) as [|q qs] eqn:Ec;
      [rewrite (disambiguate_no_candidates env payload Ht Ec) in E; discriminate E|].
    assert (Hne : Main.candidates_to_process env payload <> [])
      by (rewrite Ec; discriminate).
    rewrite (disambiguate_scored env payload Ht Hne) in E. cbn [value fst ranked_of] in E.
    destruct (head_is_first_max falcon_score _ _ _ E) as (a & c & Hu & Ha & Hc).
    exists a, c. split; [exact Hu|]. split; [|now split].
    rewrite <- Ec.
    pose proof (main_score_ids env (main_surface payload) (main_fetched env payload)
                  (encode env (main_input_text env payload))
                  (Main.candidates_to_process env payload)) as Hi.
    fold (main_unsorted env payload) in Hi. rewrite Hu in Hi.
    rewrite map_app in Hi. cbn [map] in Hi. now symmetry.
  - intros surface raw_context candidate_ids r rest E.
    destruct candidate_ids as [|q qs] eqn:Ec;
      [rewrite run_no_candidates in E; discriminate E|].
    assert (Hne : candidate_ids <> []) by (rewrite Ec; discriminate).
    rewrite <- Ec in *. rewrite (run_scored env surface raw_context candidate_ids Hne) in E.
    cbn [value fst ranked_of] in E.
    destruct (head_is_first_max falcon_score _ _ _ E) as (a & c & Hu & Ha & Hc).
    exists a, c. split; [exact Hu|]. split; [|now split].
    pose proof (run_score_ids env surface (run_descriptions env candidate_ids)
                  (encode env (run_input_text env surface raw_context))
                  candidate_ids) as Hi.
    fold (run_unsorted env surface raw_context candidate_ids) in Hi. rewrite Hu in Hi.
    rewrite map_app in Hi. cbn [map] in Hi. now symmetry.
Qed.

Lemma X17_witness :
  exists a c : list Ranked,
    run_unsorted Demo.env "Paris" ["visiting"] ["Q90"; "Q1"; "Q5"]
    = a ++ {| id := "Q1"; falcon_score := 9000 # 10000;
              semantic_reason := "Strong Context Match (90%)" |} :: c
    /\ ["Q90"; "Q1"; "Q5"] = map id a ++ "Q1" :: map id c
    /\ Forall (fun x => (falcon_score x < 9000 # 10000)%Q) a
    /\ Forall (fun x => (falcon_score x <= 9000 # 10000)%Q) c.
Proof.
  apply (proj2 (X17_top_candidate Demo.env) "Paris" ["visiting"] ["Q90"; "Q1"; "Q5"]
           {| id := "Q1"; falcon_score := 9000 # 10000;
              semantic_reason := "Strong Context Match (90%)" |}
           [ {| id := "Q5"; falcon_score := 9000 # 10000;
                semantic_reason := "Strong Context Match (90%)" |};
             {| id := "Q90"; falcon_score := 8000 # 10000;
                semantic_reason := "Strong Context Match (80%)" |} ]).
  vm_compute. reflexivity.
Defined.

(* ===================================================================== *)
(** ** Scores: order and rounding *)
(* ===================================================================== *)

Section RoundingFacts.

Lemma div10000 (r : Q) : (r / 10000 == r * (1 # 10000))%Q.
Proof. reflexivity. Qed.

Lemma floor_bounds (q : Q) :
  (inject_Z (Qfloor q) <= q)%Q /\ (q < inject_Z (Qfloor q) + 1)%Q.
Proof.
  split; [apply Qfloor_le|].
  pose proof (Qlt_floor q) as H. now rewrite inject_Z_plus in H.
Qed.

Lemma round_half_even_error (q : Q) :
  (inject_Z (PyNum.round_half_even q) - q <= 1 # 2)%Q
  /\ (q - inject_Z (PyNum.round_half_even q) <= 1 # 2)%Q.
Proof.
  destruct (floor_bounds q) as [Hlo Hhi].
  unfold PyNum.round_half_even.
  destruct (Qcompare_spec (q - inject_Z (Qfloor q)) (1 # 2)) as [E|L|G].
  - destruct (Z.even (Qfloor q)); [split; lra|].
    rewrite inject_Z_plus. change (inject_Z 1) with 1%Q. split; lra.
  - split; lra.
  - rewrite inject_Z_plus. change (inject_Z 1) with 1%Q. split; lra.
Qed.

Lemma round_half_even_comp (x y : Q) :
  (x == y)%Q -> PyNum.round_half_even x = PyNum.round_half_even y.
Proof.
  intros H. unfold PyNum.round_half_even.
  rewrite (Qfloor_comp x y H).
  assert (E : ((x - inject_Z (Qfloor y)) ?= (1 # 2))%Q
              = ((y - inject_Z (Qfloor y)) ?= (1 # 2))%Q)
    by (apply Qcompare_comp; [now rewrite H|reflexivity]).
  now rewrite E.
Qed.

Lemma round_half_even_int (k : Z) : PyNum.round_half_even (inject_Z k) = k.
Proof.
  unfold PyNum.round_half_even. rewrite Qfloor_Z.
  destruct (Qcompare_spec (inject_Z k - inject_Z k) (1 # 2)) as [E|L|G];
    [exfalso; lra|reflexivity|exfalso; lra].
Qed.

Lemma round_half_even_mono (x y : Q) :
  (x <= y)%Q -> (PyNum.round_half_even x <= PyNum.round_half_even y)%Z.
Proof.
  intros H. pose proof (Qfloor_resp_le x y H) as Hf.
  destruct (Z.eq_dec (Qfloor x) (Qfloor y)) as [Ef|Hne].
  - unfold PyNum.round_half_even. rewrite Ef.
    destruct (Qcompare_spec (x - inject_Z (Qfloor y)) (1 # 2)) as [Ex|Lx|Gx];
      destruct (Qcompare_spec (y - inject_Z (Qfloor y)) (1 # 2)) as [Ey|Ly|Gy];
      try (destruct (Z.even (Qfloor y)); lia); try lia; exfalso; lra.
  - destruct (round_half_even_near x) as [Ex|[Ex _]];
      destruct (round_half_even_near y) as [Ey|[Ey _]];
      cbn zeta in *; rewrite Ex, Ey; lia.
Qed.

Lemma round4_mono (x y : Q) : (x <= y)%Q -> (PyNum.round4 x <= PyNum.round4 y)%Q.
Proof.
  intros H. unfold PyNum.round4.
  assert (Hk : (PyNum.round_half_even (x * 10000) <= PyNum.round_half_even (y * 10000))%Z)
    by (apply round_half_even_mono; lra).
  rewrite Zle_Qle in Hk. rewrite !div10000. lra.
Qed.

Lemma round4_error (x : Q) :
  (x - (1 # 20000) <= PyNum.round4 x)%Q /\ (PyNum.round4 x <= x + (1 # 20000))%Q.
Proof.
  destruct (round_half_even_error (x * 10000)) as [H1 H2].
  unfold PyNum.round4. rewrite div10000. split; lra.
Qed.

Lemma round4_comp (x y : Q) : (x == y)%Q -> PyNum.round4 x = PyNum.round4 y.
Proof.
  intros H. unfold PyNum.round4.
  now rewrite (round_half_even_comp (x * 10000) (y * 10000)) by now rewrite H.
Qed.

Lemma round4_fixed (k : Z) :
  PyNum.round4 (inject_Z k / 10000) = (inject_Z k / 10000)%Q.
Proof.
  unfold PyNum.round4 at 1.
  rewrite (round_half_even_comp (inject_Z k / 10000 * 10000) (inject_Z k)).
  - now rewrite round_half_even_int.
  - rewrite div10000. ring.
Qed.

Lemma clamp01_mono (c1 c2 : Q) : (c1 <= c2)%Q -> (clamp01 c1 <= clamp01 c2)%Q.
Proof.
  intros H. rewrite (clamp01_cases c1), (clamp01_cases c2).
  destruct (PyNum.Qltb c1 0) eqn:A1; destruct (PyNum.Qltb c2 0) eqn:A2;
    destruct (PyNum.Qltb 1 c1) eqn:B1; destruct (PyNum.Qltb 1 c2) eqn:B2;
    repeat match goal with
           | h : PyNum.Qltb _ _ = true |- _ => apply Qltb_lt in h
           | h : PyNum.Qltb _ _ = false |- _ => apply Qltb_ge in h
           end; lra.
Qed.

Lemma clamp01_fixed (s : Q) : (0 <= s)%Q -> (s <= 1)%Q -> (clamp01 s == s)%Q.
Proof.
  intros H0 H1. rewrite (clamp01_cases s).
  destruct (PyNum.Qltb s 0) eqn:A; [apply Qltb_lt in A; lra|].
  destruct (PyNum.Qltb 1 s) eqn:B; [apply Qltb_lt in B; lra|reflexivity].
Qed.

Lemma int_of_floor (x : Q) : (0 <= x)%Q -> PyNum.int_of x = Qfloor x.
Proof.
  intros H. unfold PyNum.int_of. destruct x as [n d]. cbn [Qnum Qden Qfloor].
  apply Z.quot_div_nonneg; [|lia].
  unfold Qle in H. cbn in H. lia.
Qed.

End RoundingFacts.

(** X18.  The score function keeps the order of the similarities: a
    larger cosine similarity never gets a smaller returned score.  And a
    returned score is a fixed point of the score function: clamping and
    rounding it again changes nothing. *)
Theorem X18_score_monotone (c1 c2 : Q) :
  ((c1 <= c2)%Q ->
   (PyNum.round4 (clamp01 c1) <= PyNum.round4 (clamp01 c2))%Q)
  /\ PyNum.round4 (clamp01 (PyNum.round4 (clamp01 c1))) = PyNum.round4 (clamp01 c1).
Proof.
  split.
  - intros H. apply round4_mono. now apply clamp01_mono.
  - destruct (clamp01_bounds c1) as [H0 H1].
    destruct (round4_range _ H0 H1) as (k & Hk & Ek).
    destruct (scaled_bounds k Hk) as [B0 B1].
    rewrite Ek.
    rewrite (round4_comp (clamp01 (inject_Z k / 10000)) (inject_Z k / 10000))
      by now apply clamp01_fixed.
    apply round4_fixed.
Qed.

Lemma X18_witness :
  (PyNum.round4 (clamp01 (-3 # 10)) <= PyNum.round4 (clamp01 (80004 # 100000)))%Q.
Proof.
  apply (proj1 (X18_score_monotone (-3 # 10) (80004 # 100000))). discriminate.
Defined.

(** X19.  In the answer of [FalconPipeline.run] the returned score and the
    rationale fit together: the score is within 0.00005 of the clamped
    similarity that chose the rationale; a candidate with the strong-match
    rationale has a returned score of at least 0.8, one with the
    moderate-overlap rationale a score between 0.4 and 0.8, and one with
    the low-similarity rationale a score of at most 0.4. *)
Theorem X19_score_fits_rationale (env : Env) (surface : string)
  (raw_context candidate_ids : list string) :
  Forall
    (fun r =>
       exists s : Q,
         falcon_score r = PyNum.round4 s
         /\ semantic_reason r = FalconPipeline._generate_reason s
         /\ (s - (1 # 20000) <= falcon_score r)%Q
         /\ (falcon_score r <= s + (1 # 20000))%Q
         /\ (((8 # 10 < s)%Q
              /\ semantic_reason r = "Strong Context Match (" +:+ percent s +:+ "%)"
              /\ (8 # 10 <= falcon_score r)%Q)
             \/ ((4 # 10 < s)%Q /\ (s <= 8 # 10)%Q
                 /\ semantic_reason r = "Moderate Context Overlap (" +:+ percent s +:+ "%)"
                 /\ (4 # 10 <= falcon_score r)%Q /\ (falcon_score r <= 8 # 10)%Q)
             \/ ((s <= 4 # 10)%Q
                 /\ semantic_reason r = "Low Context Similarity"
                 /\ (falcon_score r <= 4 # 10)%Q)))
    (ranked_of (value (FalconPipeline.run env surface raw_context candidate_ids))).
Proof.
  eapply Forall_impl; [apply run_ranked_scored|].
  intros r (a & b & Hs & Hr). cbn zeta in Hs, Hr.
  set (s := clamp01 (cos_sim env a b)) in *.
  exists s. split; [exact Hs|]. split; [exact Hr|].
  destruct (round4_error s) as [E1 E2]. rewrite Hs.
  split; [exact E1|]. split; [exact E2|].
  assert (R8 : PyNum.round4 (8 # 10) = (8000 # 10000)%Q) by reflexivity.
  assert (R4 : PyNum.round4 (4 # 10) = (4000 # 10000)%Q) by reflexivity.
  destruct (Qlt_le_dec (8 # 10) s) as [H8|H8].
  - left. split; [exact H8|]. split; [rewrite Hr; now apply generate_reason_strong|].
    pose proof (round4_mono (8 # 10) s (Qlt_le_weak _ _ H8)) as M. rewrite R8 in M. lra.
  - destruct (Qlt_le_dec (4 # 10) s) as [H4|H4].
    + right. left. split; [exact H4|]. split; [exact H8|].
      split; [rewrite Hr; now apply generate_reason_moderate|].
      pose proof (round4_mono (4 # 10) s (Qlt_le_weak _ _ H4)) as M4. rewrite R4 in M4.
      pose proof (round4_mono s (8 # 10) H8) as M8. rewrite R8 in M8.
      split; lra.
    + right. right. split; [exact H4|].
      split; [rewrite Hr; now apply generate_reason_low|].
      pose proof (round4_mono s (4 # 10) H4) as M4. rewrite R4 in M4. lra.
Qed.

(** X20.  The percentage printed into a rationale is [int(score*100)] of a
    clamped score: it lies between 0 and 100, it is at least 40 whenever
    the endpoint prints it, and at least 80 in a strong-match rationale. *)
Theorem X20_percent_range (c : Q) :
  (0 <= PyNum.int_of (clamp01 c * 100) <= 100)%Z
  /\ ((4 # 10 < clamp01 c)%Q -> (40 <= PyNum.int_of (clamp01 c * 100))%Z)
  /\ ((8 # 10 < clamp01 c)%Q -> (80 <= PyNum.int_of (clamp01 c * 100))%Z).
Proof.
  destruct (clamp01_bounds c) as [H0 H1].
  assert (Hx : (0 <= clamp01 c * 100)%Q) by lra.
  rewrite (int_of_floor _ Hx).
  assert (F : forall k : Z, (inject_Z k <= clamp01 c * 100)%Q ->
                            (k <= Qfloor (clamp01 c * 100))%Z).
  { intros k Hk. rewrite <- (Qfloor_Z k). now apply Qfloor_resp_le. }
  split; [split|split].
  - apply F. exact Hx.
  - assert (Hc : (Qfloor (clamp01 c * 100) <= Qfloor (inject_Z 100))%Z).
    { apply Qfloor_resp_le. change (inject_Z 100) with 100%Q. lra. }
    now rewrite Qfloor_Z in Hc.
  - intros H. apply F. change (inject_Z 40) with 40%Q. lra.
  - intros H. apply F. change (inject_Z 80) with 80%Q. lra.
Qed.

Lemma X20_witness :
  (40 <= PyNum.int_of (clamp01 (1 # 2) * 100))%Z
  /\ (80 <= PyNum.int_of (clamp01 (9 # 10) * 100))%Z.
Proof.
  split.
  - apply (proj1 (proj2 (X20_percent_range (1 # 2)))). reflexivity.
  - apply (proj2 (proj2 (X20_percent_range (9 # 10)))). reflexivity.
Defined.

(* ===================================================================== *)
(** ** The benchmark loop *)
(* ===================================================================== *)

Section BenchmarkFacts.
Import EvaluateFalconApi.
Context (post : Payload -> option Reply).

Lemma opt_truthy_some (o : option string) :
  opt_truthy o = true -> exists s, o = Some s /\ s <> "".
Proof.
  destruct o as [s|]; [|discriminate]. cbn. intros H.
  exists s. split; [reflexivity|now apply truthy_nonempty].
Qed.

Lemma complete_fields (case : Case) :
  complete case = true ->
  (exists sf, case_surface_form case = Some sf /\ sf <> "")
  /\ (exists ex, case_expected_id case = Some ex /\ ex <> "")
  /\ default [] (case_candidates case) <> [].
Proof.
  unfold complete. intros H.
  apply andb_true_iff in H as [H Hc]. apply andb_true_iff in H as [Hs He].
  split; [now apply opt_truthy_some|]. split; [now apply opt_truthy_some|].
  destruct (default [] (case_candidates case)); [discriminate Hc|discriminate].
Qed.

Lemma step_ok (acc : Tally) (case : Case) :
  tally_ok acc -> tally_ok (step post acc case).
Proof.
  intros (Ht & Hc & Hl & Hr). unfold step.
  destruct (complete case) eqn:Hcomp; cbn [negb]; [|now repeat split].
  destruct (complete_fields case Hcomp) as ((sf & Esf & Hsf) & (ex & Eex & Hex) & _).
  destruct (post _) as [reply|]; [|now repeat split].
  destruct (status_code reply =? 200)%Z.
  - unfold tally_ok. cbn [results latencies correct_matches total_processed].
    rewrite !length_app, List.filter_app, length_app. cbn [length List.filter correct].
    split; [lia|]. split; [|split; [lia|]].
    + destruct (bool_decide _); cbn [length]; lia.
    + apply Forall_app. split; [exact Hr|]. constructor; [|constructor].
      cbn [correct predicted expected row_surface_form].
      rewrite Esf, Eex. cbn [default]. split; [|now split].
      apply bool_decide_eq_true.
  - unfold tally_ok. cbn [results latencies correct_matches total_processed].
    rewrite length_app. cbn [length]. repeat split; try assumption; lia.
Qed.

Lemma fold_ok (dataset : list Case) (acc : Tally) :
  tally_ok acc -> tally_ok (fold_left (step post) dataset acc).
Proof.
  revert acc. induction dataset as [|case dataset IH]; intros acc H; [exact H|].
  cbn [fold_left]. apply IH. now apply step_ok.
Qed.

Lemma step_latencies (acc : Tally) (case : Case) :
  (length (latencies (step post acc case)) <= S (length (latencies acc)))%nat.
Proof.
  unfold step. destruct (negb (complete case)); [lia|].
  destruct (post _) as [reply|]; [|lia].
  destruct (status_code reply =? 200)%Z; cbn [latencies];
    rewrite length_app; cbn [length]; lia.
Qed.

Lemma fold_latencies (dataset : list Case) (acc : Tally) :
  (length (latencies (fold_left (step post) dataset acc))
   <= length (latencies acc) + length dataset)%nat.
Proof.
  revert acc. induction dataset as [|case dataset IH]; intros acc; [cbn; lia|].
  cbn [fold_left length]. pose proof (IH (step post acc case)).
  pose proof (step_latencies acc case). lia.
Qed.

Lemma limited_length (dataset : list Case) (limit : option Z) :
  (length (match limit with
           | Some l => if (l =? 0)%Z then dataset else PyList.slice_to dataset l
           | None => dataset
           end) <= length dataset)%nat.
Proof.
  destruct limit as [l|]; [|lia]. destruct (l =? 0)%Z; [lia|].
  unfold PyList.slice_to. rewrite length_firstn. lia.
Qed.

End BenchmarkFacts.

(** X21.  Whatever the server answers, the four results of [evaluate_api]
    fit together: [total_processed] is the number of rows,
    [correct_matches] is the number of rows marked correct and so never
    exceeds [total_processed], there is a latency for every row, and no
    more latencies than cases; a row is marked correct exactly when its
    prediction is its expected identifier, and no row has an empty surface
    form or an empty expected identifier. *)
Theorem X21_benchmark_tally (post : Payload -> option EvaluateFalconApi.Reply)
  (dataset : list EvaluateFalconApi.Case) (limit : option Z) :
  let t := EvaluateFalconApi.evaluate_api post dataset limit in
  tally_ok t
  /\ (EvaluateFalconApi.correct_matches t <= EvaluateFalconApi.total_processed t)%nat
  /\ (EvaluateFalconApi.total_processed t <= length (EvaluateFalconApi.latencies t))%nat
  /\ (length (EvaluateFalconApi.latencies t) <= length dataset)%nat.
Proof.
  intros t.
  assert (Hok : tally_ok t).
  { apply fold_ok. unfold tally_ok. cbn. repeat split; try lia. constructor. }
  split; [exact Hok|].
  destruct Hok as (Ht & Hc & Hl & _).
  split; [|split].
  - rewrite Hc, Ht. apply List.filter_length_le.
  - lia.
  - subst t. unfold EvaluateFalconApi.evaluate_api.
    pose proof (fold_latencies post
                  (match limit with
                   | Some l => if (l =? 0)%Z then dataset else PyList.slice_to dataset l
                   | None => dataset
                   end) EvaluateFalconApi.empty_tally) as Hf.
    pose proof (limited_length dataset limit). cbn [EvaluateFalconApi.latencies
      EvaluateFalconApi.empty_tally length] in Hf. lia.
Qed.

Section BenchmarkEndpoint.
Import EvaluateFalconApi.
Context (env : Env) (clock : Payload -> Q).
Hypothesis max_positive : (1 <= max_candidates env)%Z.

Lemma slice_to_nonempty {A : Type} (l : list A) (k : Z) :
  l <> [] -> (1 <= k)%Z -> PyList.slice_to l k <> [].
Proof.
  intros Hl Hk. unfold PyList.slice_to.
  destruct (Z.ltb_spec k 0) as [Hn|_]; [lia|].
  destruct l as [|x l]; [congruence|]. cbn [length].
  replace (Z.to_nat (Z.min k (Z.of_nat (S (length l)))))
    with (S (Z.to_nat (Z.min k (Z.of_nat (S (length l))) - 1))) by lia.
  discriminate.
Qed.

(** What the endpoint answers to the request of a complete case. *)
Lemma endpoint_answers (sf : string) (context cands : list string) :
  cands <> [] ->
  exists inferred r rs,
    value (Main.disambiguate env (payload_of sf context cands)) = Result inferred (r :: rs)
    /\ In (id r) (PyList.slice_to cands (Z.min 5 (max_candidates env))).
Proof.
  intros Hc.
  pose proof (disambiguate_preserves env (payload_of sf context cands)) as Hp.
  assert (Etp : Main.candidates_to_process env (payload_of sf context cands)
                = PyList.slice_to cands (Z.min 5 (max_candidates env))) by reflexivity.
  rewrite Etp in Hp.
  assert (Hne : PyList.slice_to cands (Z.min 5 (max_candidates env)) <> [])
    by (apply slice_to_nonempty; [exact Hc|lia]).
  destruct (value (Main.disambiguate env (payload_of sf context cands)))
    as [inferred rs|msg]; [|discriminate Hp].
  destruct Hp as (Hlen & Hperm & _).
  destruct rs as [|r rs].
  - exfalso. apply Hne. now apply length_zero_iff_nil.
  - exists inferred, r, rs. split; [reflexivity|].
    eapply Permutation_in; [exact Hperm|]. now left.
Qed.

Lemma endpoint_step (D : list Case) (acc : Tally) (case : Case) :
  In case D ->
  Forall (row_from env D) (results acc) ->
  let acc' := step (endpoint env clock) acc case in
  Forall (row_from env D) (results acc')
  /\ total_processed acc'
     = (total_processed acc + if complete case then 1 else 0)%nat.
Proof.
  intros Hin Hacc. unfold step.
  destruct (complete case) eqn:Hcomp; cbn [negb]; [|split; [exact Hacc|lia]].
  destruct (complete_fields case Hcomp) as ((sf & Esf & Hsf) & (ex & Eex & Hex) & Hc).
  rewrite Esf, Eex.
  change (default "" (Some sf)) with sf. change (default "" (Some ex)) with ex.
  destruct (endpoint_answers sf (default [] (case_context case))
              (default [] (case_candidates case)) Hc) as (ip & r & rs & Ev & Hq).
  unfold endpoint. cbv zeta. rewrite Ev.
  cbn [http_status status_code body elapsed_ms Z.eqb Pos.eqb ranked_of
       results total_processed].
  split; [|lia].
  apply Forall_app. split; [exact Hacc|]. constructor; [|constructor].
  exists case, (id r). cbn [expected predicted]. now repeat split.
Qed.

Lemma endpoint_fold (D dataset : list Case) (acc : Tally) :
  incl dataset D ->
  Forall (row_from env D) (results acc) ->
  let t := fold_left (step (endpoint env clock)) dataset acc in
  Forall (row_from env D) (results t)
  /\ total_processed t
     = (total_processed acc + length (List.filter complete dataset))%nat.
Proof.
  revert acc. induction dataset as [|case dataset IH]; intros acc Hincl Hacc.
  - cbn. split; [exact Hacc|lia].
  - cbn [fold_left List.filter].
    destruct (endpoint_step D acc case (Hincl case (or_introl eq_refl)) Hacc)
      as [Hrows Htot].
    destruct (IH (step (endpoint env clock) acc case)
                (fun c Hc => Hincl c (or_intror Hc)) Hrows) as [Hr Ht].
    split; [exact Hr|]. cbn zeta in *. rewrite Ht, Htot.
    destruct (complete case); cbn [length]; lia.
Qed.

End BenchmarkEndpoint.

(** X22.  The benchmark run against the endpoint, with a configured
    maximum of at least one candidate: every complete case of the dataset
    gets a row, and the prediction of a row is never absent and is one of
    the first [min(5, max_candidates)] candidates of a complete case with
    the row's expected identifier. *)
Theorem X22_benchmark_on_endpoint (env : Env) (clock : Payload -> Q)
  (dataset : list EvaluateFalconApi.Case) :
  (1 <= max_candidates env)%Z ->
  let t := EvaluateFalconApi.evaluate_api
             (EvaluateFalconApi.endpoint env clock) dataset None in
  EvaluateFalconApi.total_processed t
  = length (List.filter EvaluateFalconApi.complete dataset)
  /\ Forall (row_from env dataset) (EvaluateFalconApi.results t).
Proof.
  intros Hm t.
  destruct (endpoint_fold env clock Hm dataset dataset EvaluateFalconApi.empty_tally
              (fun c Hc => Hc) (List.Forall_nil _)) as [Hr Ht].
  split; [exact Ht|exact Hr].
Qed.

Lemma X22_witness :
  EvaluateFalconApi.total_processed
    (EvaluateFalconApi.evaluate_api
       (EvaluateFalconApi.endpoint Demo.env (fun _ => 12 # 1)) DemoBenchmark.dataset None)
  = length (List.filter EvaluateFalconApi.complete DemoBenchmark.dataset)
  /\ Forall (row_from Demo.env DemoBenchmark.dataset)
       (EvaluateFalconApi.results
          (EvaluateFalconApi.evaluate_api
             (EvaluateFalconApi.endpoint Demo.env (fun _ => 12 # 1))
             DemoBenchmark.dataset None)).
Proof.
  apply (X22_benchmark_on_endpoint Demo.env (fun _ => 12 # 1) DemoBenchmark.dataset).
  vm_compute. discriminate.
Defined.

(* ===================================================================== *)
(** ** The limit at its bounds, and the calls of a scored request *)
(* ===================================================================== *)

Section SliceFacts.

Lemma slice_to_all {A : Type} (l : list A) (k : Z) :
  (Z.of_nat (length l) <= k)%Z -> PyList.slice_to l k = l.
Proof.
  intros H. unfold PyList.slice_to.
  destruct (Z.ltb_spec k 0) as [Hn|_]; [lia|].
  apply firstn_all2. lia.
Qed.

Lemma slice_to_prefix {A : Type} (l : list A) (k : Z) :
  (0 <= k <= Z.of_nat (length l))%Z ->
  PyList.slice_to l k = firstn (Z.to_nat k) l
  /\ length (PyList.slice_to l k) = Z.to_nat k.
Proof.
  intros H. unfold PyList.slice_to.
  destruct (Z.ltb_spec k 0) as [Hn|_]; [lia|].
  replace (Z.min k (Z.of_nat (length l))) with k by lia.
  split; [reflexivity|]. rewrite length_firstn. lia.
Qed.

End SliceFacts.

(** X23.  The truncation at its bounds, with [k = min(limit, max)] and the
    limit read as 3 when it is absent: when [k] is at least the number of
    candidates, every candidate is processed; when [k] lies between 0 and
    the number of candidates, exactly the first [k] candidates are
    processed, in their order. *)
Theorem X23_truncation_bounds (env : Env) (payload : Payload) :
  let cands := default [] (candidates payload) in
  let k := Z.min (default 3%Z (limit payload)) (max_candidates env) in
  ((Z.of_nat (length cands) <= k)%Z ->
   Main.candidates_to_process env payload = cands)
  /\ ((0 <= k <= Z.of_nat (length cands))%Z ->
      Main.candidates_to_process env payload = firstn (Z.to_nat k) cands
      /\ length (Main.candidates_to_process env payload) = Z.to_nat k).
Proof.
  intros cands k. split.
  - intros H. now apply slice_to_all.
  - intros H. now apply slice_to_prefix.
Qed.

Lemma X23_witness :
  Main.candidates_to_process Demo.env (Demo.with_limit 7 ["Q90"; "Q47746"])
  = ["Q90"; "Q47746"]
  /\ Main.candidates_to_process Demo.env (Demo.with_limit 1 ["Q90"; "Q47746"])
     = firstn 1 ["Q90"; "Q47746"].
Proof.
  split.
  - apply (proj1 (X23_truncation_bounds Demo.env (Demo.with_limit 7 ["Q90"; "Q47746"]))).
    vm_compute. discriminate.
  - apply (proj2 (X23_truncation_bounds Demo.env (Demo.with_limit 1 ["Q90"; "Q47746"]))).
    vm_compute. split; discriminate.
Defined.

(** X24.  The calls of a request that is scored, in both orchestrators:
    the descriptions are fetched in a single lookup that carries the whole
    (truncated) candidate list, and the embedder is called for the query
    text and then once per candidate, in candidate order, with the
    candidate's description, or with the surface form when the description
    is empty or absent. *)
Theorem X24_scored_calls (env : Env) :
  (forall payload : Payload,
      Main.candidates_to_process env payload <> [] ->
      List.filter is_mget (trace (Main.disambiguate env payload))
      = [EvMget (Main.candidates_to_process env payload)]
      /\ List.filter is_encode (trace (Main.disambiguate env payload))
         = EvEncode (main_input_text env payload)
           :: map (fun q =>
                     EvEncode
                       (let desc := default "" (main_descriptions env payload !! q) in
                        if PyStr.truthy desc then desc else main_surface payload))
                (Main.candidates_to_process env payload))
  /\ (forall (surface : string) (raw_context candidate_ids : list string),
        candidate_ids <> [] ->
        List.filter is_mget
          (trace (FalconPipeline.run env surface raw_context candidate_ids))
        = [EvMget candidate_ids]
        /\ List.filter is_encode
             (trace (FalconPipeline.run env surface raw_context candidate_ids))
           = EvEncode (run_input_text env surface raw_context)
             :: map (fun q =>
                       EvEncode
                         (let desc := default "" (run_descriptions env candidate_ids !! q) in
                          if PyStr.truthy desc then desc else surface))
                  candidate_ids).
Proof.
  split.
  - intros payload Hne.
    assert (Ht : Main.payload_truthy payload = true).
    { destruct (Main.payload_truthy payload) eqn:Ht; [reflexivity|].
      exfalso. apply Hne. now apply empty_payload_no_candidates. }
    rewrite (disambiguate_scored env payload Ht Hne). cbn [trace snd].
    destruct (scored_trace_counts
                (trace (Main.extract_inferred_property env (main_clean env payload)))
                (Main.candidates_to_process env payload)
                (main_input_text env payload)
                (text_for (main_surface payload) (main_descriptions env payload))
                (extract_trace_search env _)) as (_ & -> & ->).
    split; reflexivity.
  - intros surface raw_context candidate_ids Hne.
    rewrite (run_scored env surface raw_context candidate_ids Hne). cbn [trace snd].
    destruct (scored_trace_counts
                (trace (FalconPipeline._infer_property_from_ngrams env
                          (run_clean env raw_context)))
                candidate_ids (run_input_text env surface raw_context)
                (text_for surface (run_descriptions env candidate_ids))
                (infer_trace_search env _)) as (_ & -> & ->).
    split; reflexivity.
Qed.

Lemma X24_witness :
  List.filter is_mget
    (trace (FalconPipeline.run Demo.env "Paris" ["visiting"] ["Q90"; "Q1"]))
  = [EvMget ["Q90"; "Q1"]]
  /\ List.filter is_encode
       (trace (FalconPipeline.run Demo.env "Paris" ["visiting"] ["Q90"; "Q1"]))
     = EvEncode (run_input_text Demo.env "Paris" ["visiting"])
       :: map (fun q =>
                 EvEncode
                   (let desc := default "" (run_descriptions Demo.env ["Q90"; "Q1"] !! q) in
                    if PyStr.truthy desc then desc else "Paris"))
            ["Q90"; "Q1"].
Proof.
  apply (proj2 (X24_scored_calls Demo.env) "Paris" ["visiting"] ["Q90"; "Q1"]).
  discriminate.
Defined.

(* ===================================================================== *)
(** ** The score of a similarity *)
(* ===================================================================== *)

Section ScoreFacts.
Context (env : Env).

Lemma round_half_even_tie (q : Q) :
  (inject_Z (PyNum.round_half_even q) - q == 1 # 2)%Q
  \/ (q - inject_Z (PyNum.round_half_even q) == 1 # 2)%Q ->
  Z.even (PyNum.round_half_even q) = true.
Proof.
  destruct (floor_bounds q) as [Hlo Hhi].
  unfold PyNum.round_half_even.
  destruct (Qcompare_spec (q - inject_Z (Qfloor q)) (1 # 2)) as [E|L|G].
  - destruct (Z.even (Qfloor q)) eqn:Hev; [intros _; exact Hev|].
    intros _. rewrite Z.even_add, Hev. reflexivity.
  - intros [H|H]; exfalso; lra.
  - rewrite inject_Z_plus. change (inject_Z 1) with 1%Q.
    intros [H|H]; exfalso; lra.
Qed.

(** What [round(max(0.0, min(1.0, c)), 4)] is, in the words of the
    specification. *)
Lemma score_spec (c : Q) : score_of_similarity c (PyNum.round4 (clamp01 c)).
Proof.
  destruct (clamp01_bounds c) as [H0 H1].
  exists (PyNum.round_half_even (clamp01 c * 10000)).
  split; [|split; [reflexivity|]].
  { apply round_half_even_range; [lra|]. change (inject_Z 10000) with 10000%Q. lra. }
  pose proof (clamp01_cases c) as Hc.
  split; [|split].
  - intros Hneg. rewrite (proj2 (Qltb_lt c 0) Hneg) in Hc.
    rewrite (round_half_even_comp (clamp01 c * 10000) (inject_Z 0))
      by (rewrite Hc; reflexivity).
    apply round_half_even_int.
  - intros Hbig.
    assert (E0 : PyNum.Qltb c 0 = false) by (apply Qltb_ge; lra).
    rewrite E0, (proj2 (Qltb_lt 1 c) Hbig) in Hc.
    rewrite (round_half_even_comp (clamp01 c * 10000) (inject_Z 10000))
      by (rewrite Hc; reflexivity).
    apply round_half_even_int.
  - intros Hlo Hhi.
    assert (E0 : PyNum.Qltb c 0 = false) by (apply Qltb_ge; lra).
    assert (E1 : PyNum.Qltb 1 c = false) by (apply Qltb_ge; lra).
    rewrite E0, E1 in Hc.
    rewrite (round_half_even_comp (clamp01 c * 10000) (c * 10000))
      by (now rewrite Hc).
    destruct (round_half_even_error (c * 10000)) as [Ea Eb].
    split; [exact Ea|]. split; [exact Eb|].
    apply round_half_even_tie.
Qed.

Lemma main_score_exact surface dm va (qids : list string) :
  Forall (fun r =>
            falcon_score r
            = PyNum.round4
                (clamp01 (cos_sim env va
                            (encode env (text_for surface (default "" <$> dm) (id r))))))
    (value (Main.score_candidates env surface dm va qids)).
Proof.
  induction qids as [|q rest IH]; [constructor|].
  cbn [Main.score_candidates]. rewrite !value_bind. cbn [value ret fst].
  constructor; [|exact IH].
  cbn [falcon_score id FalconPipeline.encode_text call fst]. now rewrite main_text.
Qed.

Lemma run_score_exact surface dm va (qids : list string) :
  Forall (fun r =>
            falcon_score r
            = PyNum.round4
                (clamp01 (cos_sim env va (encode env (text_for surface dm (id r))))))
    (value (FalconPipeline.score_candidates env surface dm va qids)).
Proof.
  induction qids as [|q rest IH]; [constructor|].
  cbn [FalconPipeline.score_candidates]. rewrite !value_bind. cbn [value ret fst].
  constructor; [|exact IH]. reflexivity.
Qed.

Lemma score_spec_bounds (c fs : Q) :
  score_of_similarity c fs -> (0 <= fs)%Q /\ (fs <= 1)%Q.
Proof.
  intros (k & Hk & -> & _). now apply scaled_bounds.
Qed.

End ScoreFacts.

(** C3.  Every score of a returned candidate is the score of the cosine
    similarity between the embedding of the query text and the embedding
    of the candidate's text (its description, or the surface form when the
    description is empty or absent): the similarity brought into [[0,1]],
    a negative one to 0 and one above 1 to 1, and rounded to four decimal
    digits, to the nearest value [k/10000] and to the even [k] half-way.
    So every score lies in [[0,1]].  This holds for the endpoint and for
    [FalconPipeline.run]. *)
Theorem C3_scores_clamped_rounded (env : Env) :
  (forall payload : Payload,
      Forall
        (fun r =>
           let query_text :=
             default "" (surface_form payload) +:+ " "
             +:+ PyStr.join " "
                   (Main.preprocess_context env (default [] (context_window payload))) in
           let candidate_text :=
             text_for (default "" (surface_form payload))
               (main_descriptions env payload) (id r) in
           score_of_similarity
             (cos_sim env (encode env query_text) (encode env candidate_text))
             (falcon_score r)
           /\ (0 <= falcon_score r)%Q /\ (falcon_score r <= 1)%Q)
        (ranked_of (value (Main.disambiguate env payload))))
  /\ (forall (surface : string) (raw_context candidate_ids : list string),
        Forall
          (fun r =>
             let query_text :=
               PyStr.strip
                 (surface +:+ " "
                  +:+ PyStr.join " "
                        (FalconPreprocessor.clean_context_window env raw_context)) in
             let candidate_text :=
               text_for surface
                 (value (FalconPipeline._fetch_descriptions env candidate_ids)) (id r) in
             score_of_similarity
               (cos_sim env (encode env query_text) (encode env candidate_text))
               (falcon_score r)
             /\ (0 <= falcon_score r)%Q /\ (falcon_score r <= 1)%Q)
          (ranked_of (value (FalconPipeline.run env surface raw_context candidate_ids)))).
Proof.
  split.
  - intros payload.
    destruct (Main.payload_truthy payload) eqn:Ht;
      [|rewrite (disambiguate_empty_payload env payload Ht); constructor].
    destruct (Main.candidates_to_process env payload) as [|q qs] eqn:Ec;
      [rewrite (disambiguate_no_candidates env payload Ht Ec); constructor|].
    assert (Hne : Main.candidates_to_process env payload <> [])
      by (rewrite Ec; discriminate).
    rewrite (disambiguate_scored env payload Ht Hne). cbn [value fst ranked_of].
    apply Forall_sort_desc.
    eapply Forall_impl;
      [apply (main_score_exact env (main_surface payload) (main_fetched env payload)
                (encode env (main_input_text env payload))
                (Main.candidates_to_process env payload))|].
    intros r Hr. cbv zeta.
    assert (Hs : score_of_similarity
                   (cos_sim env (encode env (main_input_text env payload))
                      (encode env (text_for (main_surface payload)
                                     (main_descriptions env payload) (id r))))
                   (falcon_score r))
      by (rewrite Hr; apply score_spec).
    split; [exact Hs|]. exact (score_spec_bounds _ _ Hs).
  - intros surface raw_context candidate_ids.
    destruct candidate_ids as [|q qs] eqn:Ec;
      [rewrite run_no_candidates; constructor|].
    assert (Hne : candidate_ids <> []) by (rewrite Ec; discriminate).
    rewrite <- Ec. rewrite (run_scored env surface raw_context candidate_ids Hne).
    cbn [value fst ranked_of].
    apply Forall_sort_desc.
    eapply Forall_impl;
      [apply (run_score_exact env surface (run_descriptions env candidate_ids)
                (encode env (run_input_text env surface raw_context)) candidate_ids)|].
    intros r Hr. cbv zeta.
    assert (Hs : score_of_similarity
                   (cos_sim env (encode env (run_input_text env surface raw_context))
                      (encode env (text_for surface
                                     (run_descriptions env candidate_ids) (id r))))
                   (falcon_score r))
      by (rewrite Hr; apply score_spec).
    split; [exact Hs|]. exact (score_spec_bounds _ _ Hs).
Qed.
